(** * SwiftKYC front end ([swiftkyc/app/static/app.js])

    A shallow embedding of the browser wizard: the JavaScript values the
    handlers inspect, the [state] object and [localStorage], the views with
    their closure variables, the camera streams held by the browser, and the
    pending asynchronous continuations (network calls, [getUserMedia],
    timers).  Every handler of [app.js] is a function on [world]; the event
    loop is [step]. *)

From stdpp Require Import gmap strings list.
From Stdlib Require Import Ascii ZArith QArith Lia.

Set Warnings "-register-all".
Open Scope Z_scope.

(** ** JavaScript values *)

Module Js.

(** The values a decoded response body can hold, plus [undefined].  An
    object lists each of its properties once. *)
Inductive value : Type :=
  | VUndefined
  | VNull
  | VBool (b : bool)
  | VNumber (q : Q)
  | VString (s : string)
  | VArray (items : list value)
  | VObject (fields : list (string * value)).

(** Strings the page shows.  Response values reach the page through the
    language's string conversion, which is kept symbolic. *)
Inductive text : Type :=
  | Lit (s : string)
  | Str (v : value)               (* String(v) *)
  | Append (a b : text)           (* a + b *)
  | Else (a : text) (d : string). (* a || d, on strings: a unless it is empty *)

(** What a [catch] clause receives: [err.message], [err.status], [err.body]. *)
Record error : Type := Error {
  message : text;
  status : option Z;
  body : value
}.

Inductive result (A : Type) : Type :=
  | Ok (a : A)
  | Throw (e : error).
Arguments Ok {A} a.
Arguments Throw {A} e.

Definition bind {A B : Type} (r : result A) (k : A -> result B) : result B :=
  match r with
  | Ok a => k a
  | Throw e => Throw e
  end.

(** [new Error(m)] *)
Definition new_Error (m : text) : error :=
  {| message := m; status := None; body := VUndefined |}.

(** ToBoolean *)
Definition truthy (v : value) : bool :=
  match v with
  | VUndefined | VNull => false
  | VBool b => b
  | VNumber q => negb (Qeq_bool q 0)
  | VString s => negb (String.eqb s "")
  | VArray _ | VObject _ => true
  end.

(** [a || b] *)
Definition or (a b : value) : value := if truthy a then a else b.

Fixpoint lookup_field (k : string) (fields : list (string * value)) : value :=
  match fields with
  | [] => VUndefined
  | (k', v) :: rest => if String.eqb k k' then v else lookup_field k rest
  end.

(** The TypeError raised by a property read on [null] or [undefined]
    (the engine's wording of the message). *)
Definition TypeError (what k : string) : error :=
  new_Error (Lit ("Cannot read properties of " +:+ what +:+ " (reading '" +:+ k +:+ "')")).

(** [v.k] for the property names the program reads ([next_step], [reason],
    [session_id], [status], ...): none of them is a built-in property of a
    string, number, boolean or array, so the read yields [undefined] there. *)
Definition get (v : value) (k : string) : result value :=
  match v with
  | VUndefined => Throw (TypeError "undefined" k)
  | VNull => Throw (TypeError "null" k)
  | VObject fields => Ok (lookup_field k fields)
  | _ => Ok VUndefined
  end.

(** [v === 'lit'] *)
Definition is_string (lit : string) (v : value) : bool :=
  match v with
  | VString s => String.eqb s lit
  | _ => false
  end.

End Js.
Export Js.

Notation "x <- r ;; k" := (bind r (fun x => k))
  (at level 100, r at next level, right associativity).

(** ** Form text: [trim], [/^\d{10}$/], [parseInt]

    A string is the sequence of its code units; the model covers the code
    units below 256. *)

Module FormText.

Definition code (c : ascii) : N := Ascii.N_of_ascii c.

(** WhiteSpace and LineTerminator code units: TAB, LF, VT, FF, CR, SP, NBSP. *)
Definition is_space (c : ascii) : bool :=
  let n := code c in
  ((9 <=? n) && (n <=? 13) || (n =? 32) || (n =? 160))%N.

(** [\d] *)
Definition is_digit (c : ascii) : bool :=
  let n := code c in ((48 <=? n) && (n <=? 57))%N.

Definition digit_value (c : ascii) : Z := Z.of_N (code c) - 48.

Fixpoint trimStart (s : string) : string :=
  match s with
  | String c rest => if is_space c then trimStart rest else s
  | EmptyString => EmptyString
  end.

(** Drops the spaces at the end: a character is kept when it is not a space
    or something is kept after it. *)
Fixpoint trimEnd (s : string) : string :=
  match s with
  | String c rest =>
      match trimEnd rest with
      | EmptyString => if is_space c then EmptyString else String c EmptyString
      | kept => String c kept
      end
  | EmptyString => EmptyString
  end.

(** [s.trim()] *)
Definition trim (s : string) : string := trimEnd (trimStart s).

(** [\d{n}$] from the current position. *)
Fixpoint digits_then_end (n : nat) (s : string) : bool :=
  match n, s with
  | O, EmptyString => true
  | S n', String c rest => is_digit c && digits_then_end n' rest
  | _, _ => false
  end.

(** [/^\d{10}$/.test(s)]: the pattern is anchored at both ends and has no
    multiline flag. *)
Definition test_ten_digits (s : string) : bool := digits_then_end 10 s.

(** The value of the longest prefix of decimal digits, with the number of
    digits read; [acc] is the value so far. *)
Fixpoint digits_prefix (s : string) (acc : Z) (read : nat) : Z * nat :=
  match s with
  | String c rest =>
      if is_digit c then digits_prefix rest (10 * acc + digit_value c) (S read)
      else (acc, read)
  | EmptyString => (acc, read)
  end.

(** One optional sign at the start. *)
Definition read_sign (s : string) : Z * string :=
  match s with
  | String "-"%char rest => (-1, rest)
  | String "+"%char rest => (1, rest)
  | _ => (1, s)
  end.

(** [parseInt(s, 10)]: leading white space is skipped, one sign is read, then
    the longest run of digits; what follows is ignored.  [None] is NaN.  The
    result is the exact integer: the comparison with 18 that uses it is the
    same on the rounded double, 18 being a double and rounding being
    monotone. *)
Definition parseInt (s : string) : option Z :=
  let '(sign, s2) := read_sign (trimStart s) in
  match digits_prefix s2 0 O with
  | (_, O) => None
  | (n, _) => Some (sign * n)
  end.

End FormText.
Export FormText.

(** ** The network, as the handlers see it *)

Module Http.

(** A response: [res.ok], [res.status], [res.headers.get('content-type')],
    what [res.text()] resolves to ([None] when it rejects) and the body
    parsed as JSON ([res.json()], [JSON.parse(text)]; [Throw] carries the
    SyntaxError). *)
Record response : Type := Response {
  ok : bool;
  res_status : Z;
  content_type : option string;
  res_text : option string;
  res_json : result value
}.

(** How a [fetch] settles: with a response, or rejected (network failure). *)
Inductive fetched : Type :=
  | Responded (res : response)
  | Rejected (e : error).

(** [hay.includes(needle)] *)
Fixpoint includes (needle hay : string) : bool :=
  String.prefix needle hay ||
  match hay with
  | String _ rest => includes needle rest
  | EmptyString => false
  end.

(** [res.headers.get('content-type') || ''] then
    [ct.includes('application/json')] *)
Definition is_json (res : response) : bool :=
  includes "application/json" (default EmptyString (content_type res)).

(** [`HTTP ${res.status}`] *)
Definition http_status_text (res : response) : text :=
  Append (Lit "HTTP ") (Str (VNumber (inject_Z (res_status res)))).

(** [apiFetch], lines 53-71, from the point where [fetch] has settled. *)
Definition apiFetch (f : fetched) : result value :=
  match f with
  | Rejected e => Throw e
  | Responded res =>
      body <- (if is_json res then res_json res
               else match res_text res with
                    | Some t =>
                        if String.eqb t "" then Ok VNull
                        else match res_json res with
                             | Ok v => Ok v
                             | Throw _ => Ok (VString t)
                             end
                    | None => Ok VNull
                    end) ;;
      if negb (ok res) then
        named <- (if truthy body
                  then (d <- get body "detail" ;; m <- get body "message" ;; Ok (or d m))
                  else Ok body) ;;
        let errMsg :=
          if truthy named then Str named
          else match body with
               | VString s => if String.eqb s "" then http_status_text res else Lit s
               | _ => http_status_text res
               end in
        Throw {| message := errMsg; status := Some (res_status res); body := body |}
      else Ok body
  end.

End Http.
Export Http.

(** ** The application state *)

Module App.

(** A camera stream handed out by [getUserMedia]; an image payload. *)
Definition stream : Type := nat.
Definition blob : Type := nat.

(** The [state] object, lines 16-22. *)
Record State : Type := mkState {
  sessionId : value;
  name : value;
  mobile : value;
  age : value;
  documentType : value;
  documentNumber : value;
  lastOcrResponse : value;
  activeStream : option stream
}.

(** What the OCR progress node shows in [#ocr-result]. *)
Inductive ocr_panel : Type :=
  | OcrWaiting
  | OcrMessage (t : text)
  | OcrConfirm (storage : value). (* "Document uploaded", with the buttons
                                     Proceed to Selfie and Retry Upload *)

(** What [#app] holds. *)
Inductive page : Type :=
  | Home
  | CreateSession
  | SelectDocument
  | EnterDocNumber
  | UploadDocument
  | OcrProgress (p : ocr_panel)
  | SelfieUpload
  | Status
  | AdminList.

(** [#source-area] of the upload view: the file input, or the camera panel
    of one [setupCameraCapture] call, whose Capture and Close buttons get
    their listeners once the video plays. *)
Inductive source_area : Type :=
  | FileInput
  | CameraPanel (panel : nat) (wired : bool).

(** The closure variables of one [renderUploadDocument] call. *)
Record upload_closure : Type := mkUpload {
  chosenFile : option blob;
  localStream : option stream;
  sourceArea : source_area
}.

(** The closure variables of one [renderSelfieUpload] call. *)
Record selfie_closure : Type := mkSelfie {
  selfieStream : option stream;   (* its [localStream] *)
  capturedBlob : option blob
}.

(** What a timer runs. *)
Inductive continuation : Type :=
  | RenderSelectDocument
  | RenderUploadDocument.

(** Suspended computations: each is the rest of an [async] handler after an
    [await], a [toBlob] callback or a timer.  [v] is the node of [#app] the
    handler was attached to. *)
Inductive task : Type :=
  | TCreateSession (v : nat) (name mobile : string) (age : Z)
  | TSelectDocument (v : nat) (docType : value)
  | TEnterDocNumber (v : nat) (docno : string)
  | TValidateDocument (v : nat)
  | TSelfie (v : nat)
  | TStatus (v : nat)
  | TGetUserMediaDoc (v panel : nat)
  | TPlayDoc (v panel : nat)
  | TGetUserMediaSelfie (v : nat)
  | TPlaySelfie (v : nat)
  | TToBlobDoc (v : nat)
  | TToBlobSelfie (v : nat)
  | TTimer (ms : Z) (k : continuation).

(** Requests handed to [fetch]. *)
Inductive request : Type :=
  | PostJson (path : text) (payload : list (string * value))
  | PostForm (path : text) (file : blob) (filename : string)
  | Get (path : text) (params : list (string * string)).

Record world : Type := mkWorld {
  st : State;                           (* the [state] object *)
  localStorage : gmap string text;
  shown : page;                         (* what [#app] holds *)
  vid : nat;                            (* the node [#app] holds *)
  banner : option text;                 (* the last [showMessage] in it *)
  uploads : gmap nat upload_closure;
  selfies : gmap nat selfie_closure;
  live : gset stream;                   (* streams whose tracks run *)
  issued : nat;                         (* streams handed out so far *)
  fresh : nat;                          (* nodes created so far *)
  tasks : list task;
  requests : list request
}.

(** *** Field updates *)

Definition set_sessionId (x : value) (s : State) : State :=
  mkState x (name s) (mobile s) (age s) (documentType s) (documentNumber s)
          (lastOcrResponse s) (activeStream s).
Definition set_person (n m a : value) (s : State) : State :=
  mkState (sessionId s) n m a (documentType s) (documentNumber s)
          (lastOcrResponse s) (activeStream s).
Definition set_documentType (x : value) (s : State) : State :=
  mkState (sessionId s) (name s) (mobile s) (age s) x (documentNumber s)
          (lastOcrResponse s) (activeStream s).
Definition set_documentNumber (x : value) (s : State) : State :=
  mkState (sessionId s) (name s) (mobile s) (age s) (documentType s) x
          (lastOcrResponse s) (activeStream s).
Definition set_lastOcrResponse (x : value) (s : State) : State :=
  mkState (sessionId s) (name s) (mobile s) (age s) (documentType s)
          (documentNumber s) x (activeStream s).
Definition set_activeStream (x : option stream) (s : State) : State :=
  mkState (sessionId s) (name s) (mobile s) (age s) (documentType s)
          (documentNumber s) (lastOcrResponse s) x.

Definition with_st (f : State -> State) (w : world) : world :=
  mkWorld (f (st w)) (localStorage w) (shown w) (vid w) (banner w) (uploads w)
          (selfies w) (live w) (issued w) (fresh w) (tasks w) (requests w).
Definition with_localStorage (x : gmap string text) (w : world) : world :=
  mkWorld (st w) x (shown w) (vid w) (banner w) (uploads w)
          (selfies w) (live w) (issued w) (fresh w) (tasks w) (requests w).
Definition with_shown (x : page) (w : world) : world :=
  mkWorld (st w) (localStorage w) x (vid w) (banner w) (uploads w)
          (selfies w) (live w) (issued w) (fresh w) (tasks w) (requests w).
Definition with_banner (x : option text) (w : world) : world :=
  mkWorld (st w) (localStorage w) (shown w) (vid w) x (uploads w)
          (selfies w) (live w) (issued w) (fresh w) (tasks w) (requests w).
Definition with_uploads (x : gmap nat upload_closure) (w : world) : world :=
  mkWorld (st w) (localStorage w) (shown w) (vid w) (banner w) x
          (selfies w) (live w) (issued w) (fresh w) (tasks w) (requests w).
Definition with_selfies (x : gmap nat selfie_closure) (w : world) : world :=
  mkWorld (st w) (localStorage w) (shown w) (vid w) (banner w) (uploads w)
          x (live w) (issued w) (fresh w) (tasks w) (requests w).
Definition with_live (x : gset stream) (w : world) : world :=
  mkWorld (st w) (localStorage w) (shown w) (vid w) (banner w) (uploads w)
          (selfies w) x (issued w) (fresh w) (tasks w) (requests w).
Definition with_tasks (x : list task) (w : world) : world :=
  mkWorld (st w) (localStorage w) (shown w) (vid w) (banner w) (uploads w)
          (selfies w) (live w) (issued w) (fresh w) x (requests w).

(** A suspended computation is queued; a request goes out. *)
Definition spawn (t : task) (w : world) : world := with_tasks (tasks w ++ [t]) w.
Definition send (r : request) (w : world) : world :=
  mkWorld (st w) (localStorage w) (shown w) (vid w) (banner w) (uploads w)
          (selfies w) (live w) (issued w) (fresh w) (tasks w) (requests w ++ [r]).

(** A new DOM node: its identity. *)
Definition new_node (w : world) : nat * world :=
  (fresh w,
   mkWorld (st w) (localStorage w) (shown w) (vid w) (banner w) (uploads w)
           (selfies w) (live w) (issued w) (S (fresh w)) (tasks w) (requests w)).

(** [getUserMedia] resolves: a new stream, its tracks running. *)
Definition new_stream (w : world) : stream * world :=
  (issued w,
   mkWorld (st w) (localStorage w) (shown w) (vid w) (banner w) (uploads w)
           (selfies w) (live w ∪ {[issued w]}) (S (issued w)) (fresh w)
           (tasks w) (requests w)).

(** [s.getTracks().forEach(t => t.stop())] *)
Definition stop_tracks (s : stream) (w : world) : world :=
  with_live (live w ∖ {[s]}) w.

(** *** Utilities, lines 34-79 *)

(** [setMain(node)] with a node cloned from a template. *)
Definition setMain (p : page) (w : world) : world :=
  let '(v, w) := new_node w in
  mkWorld (st w) (localStorage w) p v None (uploads w)
          (selfies w) (live w) (issued w) (fresh w) (tasks w) (requests w).

(** [showMessage(el, text)] for an element of node [v]: seen when [v] is
    still what [#app] holds.  (The timer that clears the text after 5.5 s is
    left out.) *)
Definition showMessage (v : nat) (t : text) (w : world) : world :=
  if Nat.eqb v (vid w) then with_banner (Some t) w else w.

Definition stopActiveStream (w : world) : world :=
  match activeStream (st w) with
  | Some s => with_st (set_activeStream None) (stop_tracks s w)
  | None => w
  end.

End App.
Export App.

(** ** The customer wizard, lines 116-551 *)

Module Wizard.

(** [`/api/v1/kyc/session/${state.sessionId}${suffix}`] *)
Definition session_path (w : world) (suffix : string) : text :=
  Append (Lit "/api/v1/kyc/session/")
         (Append (Str (sessionId (st w))) (Lit suffix)).

(** ['...: ' + (err.message || 'server error')] *)
Definition failure (prefix : string) (e : error) : text :=
  Append (Lit prefix) (Else (message e) "server error").

Definition showHome (w : world) : world :=
  setMain Home (stopActiveStream w).

Definition renderCreateSession (w : world) : world :=
  setMain CreateSession (stopActiveStream w).

Definition renderSelectDocument (w : world) : world :=
  setMain SelectDocument (stopActiveStream w).

Definition renderEnterDocNumber (w : world) : world :=
  setMain EnterDocNumber (stopActiveStream w).

(** *** Upload document, lines 240-425 *)

Definition upload_of (v : nat) (w : world) : upload_closure :=
  default (mkUpload None None FileInput) (uploads w !! v).

Definition set_upload (v : nat) (c : upload_closure) (w : world) : world :=
  with_uploads (<[v := c]> (uploads w)) w.

Definition set_chosenFile (v : nat) (f : option blob) (w : world) : world :=
  let c := upload_of v w in
  set_upload v (mkUpload f (localStream c) (sourceArea c)) w.

Definition set_localStream (v : nat) (s : option stream) (w : world) : world :=
  let c := upload_of v w in
  set_upload v (mkUpload (chosenFile c) s (sourceArea c)) w.

Definition set_sourceArea (v : nat) (a : source_area) (w : world) : world :=
  let c := upload_of v w in
  set_upload v (mkUpload (chosenFile c) (localStream c) a) w.

Definition stopLocalCamera (v : nat) (w : world) : world :=
  let w :=
    match localStream (upload_of v w) with
    | Some s => set_localStream v None (stop_tracks s w)
    | None => w
    end in
  with_st (set_activeStream None) w.

Definition setupFileInput (v : nat) (w : world) : world :=
  set_sourceArea v FileInput (stopLocalCamera v w).

(** [setupCameraCapture] up to its [await getUserMedia]. *)
Definition setupCameraCapture (v : nat) (w : world) : world :=
  let '(p, w) := new_node w in
  spawn (TGetUserMediaDoc v p) (set_sourceArea v (CameraPanel p false) w).

Definition renderUploadDocument (w : world) : world :=
  let w := setMain UploadDocument (stopActiveStream w) in
  let v := vid w in
  setupFileInput v (set_upload v (mkUpload None None FileInput) w).

(** The source selector changes to [value]. *)
Definition change_source (value : string) (w : world) : world :=
  let v := vid w in
  let w := set_chosenFile v None w in
  if String.eqb value "file" then setupFileInput v w else setupCameraCapture v w.

(** The file input changes; [f] is [fi.files[0]]. *)
Definition change_file (f : option blob) (w : world) : world :=
  match f with
  | Some b => set_chosenFile (vid w) (Some b) w
  | None => w
  end.

Definition camera_wired (v : nat) (w : world) : bool :=
  match sourceArea (upload_of v w) with
  | CameraPanel _ wired => wired
  | FileInput => false
  end.

Definition click_doc_close (w : world) : world :=
  let v := vid w in
  setupFileInput v (stopLocalCamera v w).

Definition click_cancel_upload (w : world) : world :=
  showHome (stopLocalCamera (vid w) w).

(** The upload button, lines 347-373, up to [await fetch].  (The interval
    that animates the progress bar is left out.) *)
Definition click_upload_doc (w : world) : world :=
  let v := vid w in
  match chosenFile (upload_of v w) with
  | None => showMessage v (Lit "Please choose or capture a file first.") w
  | Some f =>
      if negb (truthy (sessionId (st w)))
      then showMessage v (Lit "Session missing — start again.") w
      else
        let w := setMain (OcrProgress OcrWaiting) w in
        let w := send (PostForm (session_path w "/validate-document") f "document.jpg") w in
        spawn (TValidateDocument (vid w)) w
  end.

(** The body as the upload handler decodes it, lines 378-384. *)
Definition ocr_data (res : response) : result value :=
  if is_json res then res_json res
  else match res_text res with
       | Some txt =>
           if String.eqb txt "" then Ok (VObject [])
           else match res_json res with
                | Ok v => Ok v
                | Throw _ =>
                    Ok (VObject [("next_step", VString "SCAN_DOC");
                                 ("reason", VString txt)])
                end
       | None => Ok (VObject [])
       end.

(** [data.next_step || data.nextStep], line 387. *)
Definition next_step (data : value) : result value :=
  a <- get data "next_step" ;; b <- get data "nextStep" ;; Ok (or a b).

(** How an upload attempt ends. *)
Inductive ocr_verdict : Type :=
  | Confirm (storage : value)  (* the confirmation with its two buttons *)
  | Redo (t : text).           (* a message, then
                                  [setTimeout(() => renderUploadDocument(), 1200)] *)

Definition generic_mismatch : string :=
  "OCR did not match. Please re-upload a clearer image.".

(** The [try] block from the settled [fetch], lines 370-416: the value kept
    in [state.lastOcrResponse], and the verdict. *)
Definition ocr_try (f : fetched) : result (value * ocr_verdict) :=
  match f with
  | Rejected e => Throw e
  | Responded res =>
      data <- ocr_data res ;;
      nextStep <- next_step data ;;
      if negb (ok res) then
        named <- (if truthy data
                  then (r <- get data "reason" ;; d <- get data "detail" ;; Ok (or r d))
                  else Ok data) ;;
        let reason := or named (VString "OCR validation failed") in
        Ok (data, Redo (Append (Lit "OCR failed: ") (Str reason)))
      else if is_string "SELFIE" nextStep then
        s <- get data "storage_url" ;;
        Ok (data, Confirm (or s (VString "uploaded")))
      else
        r <- get data "reason" ;;
        Ok (data, Redo (Str (or r (VString generic_mismatch))))
  end.

(** The whole handler with its [catch], lines 417-423. *)
Definition ocr_outcome (f : fetched) : option value * ocr_verdict :=
  match ocr_try f with
  | Ok (data, verdict) => (Some data, verdict)
  | Throw e => (None, Redo (failure "Upload/OCR failed: " e))
  end.

(** [#ocr-result] of node [v] changes: seen when [v] is what [#app] holds. *)
Definition show_ocr (v : nat) (p : ocr_panel) (w : world) : world :=
  if Nat.eqb v (vid w) then with_shown (OcrProgress p) w else w.

Definition settle_validate (v : nat) (f : fetched) (w : world) : world :=
  let '(data, verdict) := ocr_outcome f in
  let w :=
    match data with
    | Some d => with_st (set_lastOcrResponse d) w
    | None => w
    end in
  match verdict with
  | Confirm s => show_ocr v (OcrConfirm s) w
  | Redo t => spawn (TTimer 1200 RenderUploadDocument) (show_ocr v (OcrMessage t) w)
  end.

(** *** Selfie, lines 430-510 *)

Definition selfie_of (v : nat) (w : world) : selfie_closure :=
  default (mkSelfie None None) (selfies w !! v).

Definition set_selfie (v : nat) (c : selfie_closure) (w : world) : world :=
  with_selfies (<[v := c]> (selfies w)) w.

(** [startCamera] up to its [await getUserMedia]. *)
Definition startCamera (v : nat) (w : world) : world :=
  spawn (TGetUserMediaSelfie v) w.

Definition stopCamera (v : nat) (w : world) : world :=
  let c := selfie_of v w in
  match selfieStream c with
  | Some s =>
      with_st (set_activeStream None)
              (set_selfie v (mkSelfie None (capturedBlob c)) (stop_tracks s w))
  | None => w
  end.

Definition renderSelfieUpload (w : world) : world :=
  let w := setMain SelfieUpload (stopActiveStream w) in
  let v := vid w in
  startCamera v (set_selfie v (mkSelfie None None) w).

(** *** Status, lines 513-551 *)

Definition loadStatus (v : nat) (w : world) : world :=
  if negb (truthy (sessionId (st w)))
  then showMessage v (failure "Failed to load status: "
                              (new_Error (Lit "No session id stored."))) w
  else spawn (TStatus v) (send (Get (session_path w "") []) w).

Definition renderStatusPage (w : world) : world :=
  let w := setMain Status (stopActiveStream w) in
  loadStatus (vid w) w.

(** The fields the status grid reads. *)
Definition status_grid (data : value) : result unit :=
  _ <- get data "session_id" ;; _ <- get data "status" ;;
  _ <- get data "current_step" ;; _ <- get data "customer_id" ;; Ok tt.

Definition settle_status (v : nat) (f : fetched) (w : world) : world :=
  match (data <- apiFetch f ;; status_grid data) with
  | Ok _ => w
  | Throw e => showMessage v (failure "Failed to load status: " e) w
  end.

(** The selfie buttons. *)
Definition click_capture_selfie (videoWidth : Z) (w : world) : world :=
  let v := vid w in
  if videoWidth =? 0 then showMessage v (Lit "Camera not ready — try again.") w
  else spawn (TToBlobSelfie v) w.

Definition click_upload_selfie (w : world) : world :=
  let v := vid w in
  match capturedBlob (selfie_of v w) with
  | None => showMessage v (Lit "Capture a selfie first.") w
  | Some b =>
      if negb (truthy (sessionId (st w)))
      then showMessage v (Lit "Session missing.") w
      else
        let w := showMessage v (Lit "Uploading selfie...") w in
        spawn (TSelfie v) (send (PostForm (session_path w "/selfie") b "selfie.jpg") w)
  end.

(** The [try] block of the selfie upload from the settled [fetch],
    lines 489-493: only [res.ok] is read, and the text of a failure. *)
Definition selfie_try (f : fetched) : result unit :=
  match f with
  | Rejected e => Throw e
  | Responded res =>
      if negb (ok res) then
        match res_text res with
        | Some txt =>
            Throw (new_Error (Lit (if String.eqb txt "" then "Upload failed" else txt)))
        | None => Throw (new_Error (Lit "Upload failed"))
        end
      else Ok tt
  end.

Definition settle_selfie (v : nat) (f : fetched) (w : world) : world :=
  match selfie_try f with
  | Ok _ => renderStatusPage (stopCamera v w)
  | Throw e => showMessage v (failure "Selfie upload failed: " e) w
  end.

Definition click_cancel_selfie (w : world) : world :=
  renderUploadDocument (stopCamera (vid w) w).

(** *** Create session, lines 136-174 *)

Definition storage_key : string := "swiftkyc_session".

Definition underage : text := Lit "You must be 18 years or older.".

(** The submit handler up to [await apiFetch]. *)
Definition submit_create_session (i_name i_mobile i_age : string) (w : world) : world :=
  let v := vid w in
  let name := trim i_name in
  let mobile := trim i_mobile in
  let age := parseInt i_age in
  if String.eqb name "" || negb (test_ten_digits mobile)
  then showMessage v (Lit "Enter a valid name and 10-digit mobile.") w
  else
    match age with
    | None => showMessage v underage w
    | Some a =>
        if a <? 18 then showMessage v underage w
        else
          let w := showMessage v (Lit "Creating session...") w in
          let w := send (PostJson (Lit "/api/v1/kyc/session")
                                  [("name", VString name); ("mobile", VString mobile)]) w in
          spawn (TCreateSession v name mobile a) w
    end.

(** Lines 155-161: the identifier taken from the response. *)
Definition session_id_of (f : fetched) : result value :=
  body <- apiFetch f ;;
  a <- get body "session_id" ;; b <- get body "sessionId" ;; c <- get body "id" ;;
  let sid := or (or a b) c in
  if negb (truthy sid) then Throw (new_Error (Lit "No session_id in response"))
  else Ok sid.

(** [localStorage.setItem(k, x)] keeps the string conversion of [x]. *)
Definition setItem (k : string) (x : value) (w : world) : world :=
  with_localStorage (<[k := Str x]> (localStorage w)) w.

Definition settle_create_session
    (v : nat) (name mobile : string) (age : Z) (f : fetched) (w : world) : world :=
  match session_id_of f with
  | Ok sid =>
      let w := with_st (set_sessionId sid) w in
      let w := with_st (set_person (VString name) (VString mobile)
                                   (VNumber (inject_Z age))) w in
      let w := setItem storage_key sid w in
      let w := showMessage v (Lit "Session created — continuing...") w in
      spawn (TTimer 300 RenderSelectDocument) w
  | Throw e => showMessage v (failure "Create session failed: " e) w
  end.

(** *** Select document and document number, lines 177-234 *)

(** A [.doc-btn] with its [data-doc] attribute. *)
Definition click_doc (attr : option string) (w : world) : world :=
  let v := vid w in
  let docType := match attr with Some s => VString s | None => VNull end in
  if negb (truthy (sessionId (st w)))
  then showMessage v (Lit "Session missing, start again.") w
  else spawn (TSelectDocument v docType)
             (send (PostJson (session_path w "/select-document")
                             [("doc_type", docType)]) w).

Definition settle_select_document (v : nat) (docType : value) (f : fetched) (w : world) : world :=
  match (resp <- apiFetch f ;; t <- get resp "doc_type" ;; Ok (or t docType)) with
  | Ok t => renderEnterDocNumber (with_st (set_documentType t) w)
  | Throw e => showMessage v (failure "Select document failed: " e) w
  end.

Definition submit_doc_number (i_docno : string) (w : world) : world :=
  let v := vid w in
  let docno := trim i_docno in
  if String.eqb docno "" then showMessage v (Lit "Enter the document number.") w
  else if negb (truthy (sessionId (st w))) then showMessage v (Lit "Session missing.") w
  else spawn (TEnterDocNumber v docno)
             (send (PostJson (session_path w "/enter-doc-number")
                             [("doc_number", VString docno)]) w).

Definition settle_doc_number (v : nat) (docno : string) (f : fetched) (w : world) : world :=
  match (resp <- apiFetch f ;; n <- get resp "doc_number" ;; Ok (or n (VString docno))) with
  | Ok n => renderUploadDocument (with_st (set_documentNumber n) w)
  | Throw e => showMessage v (failure "Saving document number failed: " e) w
  end.

End Wizard.
Export Wizard.

(** ** Dates: [Date.UTC] and [toISOString]

    The time values and the day-number arithmetic of the language's Date
    objects, on exact integers; [None] is NaN. *)

Module JsDate.

Definition msPerDay : Z := 86400000.

Definition DaysInYear (y : Z) : Z :=
  if negb (y mod 4 =? 0) then 365
  else if negb (y mod 100 =? 0) then 366
  else if negb (y mod 400 =? 0) then 365
  else 366.

Definition DayFromYear (y : Z) : Z :=
  365 * (y - 1970) + (y - 1969) / 4 - (y - 1901) / 100 + (y - 1601) / 400.

Definition Day (t : Z) : Z := t / msPerDay.
Definition TimeWithinDay (t : Z) : Z := t mod msPerDay.

(** The largest [y] with [DayFromYear y <= d], searched upwards from a year
    that is not after it. *)
Fixpoint year_search (fuel : nat) (y d : Z) : Z :=
  match fuel with
  | O => y
  | S fuel' => if DayFromYear (y + 1) <=? d then year_search fuel' (y + 1) d else y
  end.

Definition YearFromDay (d : Z) : Z :=
  year_search (Z.to_nat (Z.abs d / 365 + 3)) (1970 + Z.min (d / 365) (d / 366) - 1) d.

Definition YearFromTime (t : Z) : Z := YearFromDay (Day t).

Definition InLeapYear (t : Z) : Z :=
  if DaysInYear (YearFromTime t) =? 366 then 1 else 0.

Definition DayWithinYear (t : Z) : Z := Day t - DayFromYear (YearFromTime t).

(** Months count from 0. *)
Definition MonthFromTime (t : Z) : Z :=
  let d := DayWithinYear t in
  let l := InLeapYear t in
  if d <? 31 then 0
  else if d <? 59 + l then 1
  else if d <? 90 + l then 2
  else if d <? 120 + l then 3
  else if d <? 151 + l then 4
  else if d <? 181 + l then 5
  else if d <? 212 + l then 6
  else if d <? 243 + l then 7
  else if d <? 273 + l then 8
  else if d <? 304 + l then 9
  else if d <? 334 + l then 10
  else 11.

(** The day within the year on which month [m] starts. *)
Definition month_start (m l : Z) : Z :=
  if m =? 0 then 0
  else if m =? 1 then 31
  else if m =? 2 then 59 + l
  else if m =? 3 then 90 + l
  else if m =? 4 then 120 + l
  else if m =? 5 then 151 + l
  else if m =? 6 then 181 + l
  else if m =? 7 then 212 + l
  else if m =? 8 then 243 + l
  else if m =? 9 then 273 + l
  else if m =? 10 then 304 + l
  else 334 + l.

Definition DateFromTime (t : Z) : Z :=
  DayWithinYear t - month_start (MonthFromTime t) (InLeapYear t) + 1.

Definition HourFromTime (t : Z) : Z := (t / 3600000) mod 24.
Definition MinFromTime (t : Z) : Z := (t / 60000) mod 60.
Definition SecFromTime (t : Z) : Z := (t / 1000) mod 60.
Definition msFromTime (t : Z) : Z := t mod 1000.

Definition MakeTime (hour min sec ms : Z) : Z :=
  hour * 3600000 + min * 60000 + sec * 1000 + ms.

(** The day number of the first day of month [month] of [year], plus
    [date - 1]. *)
Definition MakeDay (year month date : Z) : Z :=
  let ym := year + month / 12 in
  let mn := month mod 12 in
  let l := if DaysInYear ym =? 366 then 1 else 0 in
  DayFromYear ym + month_start mn l + date - 1.

Definition MakeDate (day time : Z) : Z := day * msPerDay + time.

Definition TimeClip (t : Z) : option Z :=
  if Z.abs t >? 8640000000000000 then None else Some t.

(** [Date.UTC(year, month, date, hours, minutes, seconds)]: a year from 0
    to 99 stands for 1900 + year. *)
Definition Date_UTC (year month date : option Z) (hours minutes seconds : Z) : option Z :=
  match year, month, date with
  | Some y, Some m, Some dt =>
      let yr := if (0 <=? y) && (y <=? 99) then 1900 + y else y in
      TimeClip (MakeDate (MakeDay yr m dt) (MakeTime hours minutes seconds 0))
  | _, _, _ => None
  end.

Definition digit_char (n : Z) : ascii := Ascii.ascii_of_N (Z.to_N (48 + n mod 10)).

(** [n >= 0] in decimal, on [width] digits. *)
Fixpoint pad (width : nat) (n : Z) : string :=
  match width with
  | O => EmptyString
  | S width' => pad width' (n / 10) +:+ String (digit_char n) EmptyString
  end.

Definition year_text (y : Z) : string :=
  if (0 <=? y) && (y <=? 9999) then pad 4 y
  else if y <? 0 then "-" +:+ pad 6 (- y)
  else "+" +:+ pad 6 y.

(** [new Date(tv).toISOString()] *)
Definition toISOString (tv : option Z) : result string :=
  match tv with
  | None => Throw (new_Error (Lit "Invalid time value"))
  | Some t =>
      Ok (year_text (YearFromTime t) +:+ "-" +:+ pad 2 (MonthFromTime t + 1) +:+ "-"
          +:+ pad 2 (DateFromTime t) +:+ "T" +:+ pad 2 (HourFromTime t) +:+ ":"
          +:+ pad 2 (MinFromTime t) +:+ ":" +:+ pad 2 (SecFromTime t) +:+ "."
          +:+ pad 3 (msFromTime t) +:+ "Z")
  end.

End JsDate.
Export JsDate.

(** ** The admin dashboard, lines 556-844 *)

Module Admin.

(** [s.split('-')] *)
Fixpoint split_dash (s : string) : list string :=
  match s with
  | EmptyString => [EmptyString]
  | String c rest =>
      if Ascii.eqb c "-" then EmptyString :: split_dash rest
      else match split_dash rest with
           | first :: others => String c first :: others
           | [] => [String c EmptyString]
           end
  end.

(** [Number(s)] for the pieces of a date field, which holds the empty
    string or [YYYY-MM-DD] (line 816): a run of decimal digits is its value,
    blank text is 0.  The other numeric literals (fraction, exponent, sign,
    hexadecimal, Infinity) do not arise there and are taken as NaN. *)
Definition Number (s : string) : option Z :=
  let t := trim s in
  match digits_prefix t 0 O with
  | (n, read) => if Nat.eqb read (String.length t) then Some n else None
  end.

(** [getCurrentFilters], lines 810-830, on the values of the three filter
    fields.  The object it returns lists its properties in the order they
    were set. *)
Definition getCurrentFilters (fStatus fDoc fDate : string) : result (list (string * string)) :=
  let f := [] in
  let f := if String.eqb fStatus "" then f else f ++ [("status", fStatus)] in
  let f := if String.eqb fDoc "" then f else f ++ [("doc_type", fDoc)] in
  if String.eqb fDate "" then Ok f
  else
    match split_dash fDate with
    | [p0; p1; p2] =>
        let y := Number p0 in
        let m := option_map (fun n => n - 1) (Number p1) in
        let d := Number p2 in
        createdFrom <- toISOString (Date_UTC y m d 0 0 0) ;;
        createdTo <- toISOString (Date_UTC y m d 23 59 59) ;;
        Ok (f ++ [("created_from", createdFrom); ("created_to", createdTo)])
    | _ => Ok f
    end.

(** The query [loadSessions] builds, lines 580-584: a filter is sent when
    it is a non-empty string. *)
Definition query (filters : list (string * string)) : list (string * string) :=
  let pick k :=
    match List.find (fun kv => String.eqb (fst kv) k) filters with
    | Some (_, v) => if String.eqb v "" then [] else [(k, v)]
    | None => []
    end in
  pick "status" ++ pick "doc_type" ++ pick "created_from" ++ pick "created_to".

Definition loadSessions (filters : list (string * string)) (w : world) : world :=
  send (Get (Lit "/api/v1/admin/kyc/sessions") (query filters)) w.

(** [renderAdminList]; the continuation of its request fills the table and
    touches nothing else. *)
Definition renderAdminList (w : world) : world :=
  loadSessions [] (setMain AdminList (stopActiveStream w)).

(** The Apply button: an exception of [getCurrentFilters] ends the handler. *)
Definition click_apply (fStatus fDoc fDate : string) (w : world) : world :=
  match getCurrentFilters fStatus fDoc fDate with
  | Ok f => loadSessions f w
  | Throw _ => w
  end.

Definition click_reset (w : world) : world := loadSessions [] w.

(** *** The detail modal, lines 621-807 *)







End Admin.
Export Admin.

(** ** The event loop *)

Module Loop.

Inductive button : Type :=
  (* the header: each has the two listeners of [boot], lines 84-85 and 108-109 *)
  | NavHome
  | NavAdmin
  (* [#start-digital-kyc] and [#open-admin], which get one more listener at
     [boot] and at every [showHome] that finds them: [listeners] is how many
     the element had besides the first *)
  | StartDigitalKyc (listeners : nat)
  | OpenAdmin (listeners : nat)
  (* inside the view shown *)
  | StartKyc
  | CancelToHome
  | DocBtn (attr : option string)
  | BackToSelect
  | UploadDocBtn
  | CancelUploadDoc
  | DocCapture
  | DocClose
  | ProceedToSelfie
  | RetryUpload
  | CaptureSelfie (videoWidth : Z)
  | UploadSelfie
  | CancelSelfie
  | RefreshStatus
  | ToHome
  | FilterApply (fStatus fDoc fDate : string)
  | FilterReset.

(** How a suspended computation is resumed. *)
Inductive outcome : Type :=
  | Fetched (f : fetched)       (* [fetch] settles *)
  | Granted                     (* [getUserMedia] resolves with a new stream *)
  | Denied (e : error)          (* [getUserMedia] rejects *)
  | Played                      (* [video.play()] resolves *)
  | PlayFailed (e : error)
  | Blob (b : option blob)      (* the [toBlob] callback runs *)
  | Fired.                      (* a timer fires *)

Inductive event : Type :=
  | Click (b : button)
  | SubmitCreateSession (i_name i_mobile i_age : string)
  | SubmitDocNumber (i_docno : string)
  | SourceChange (value : string)
  | FileChange (f : option blob)
  | Settle (i : nat) (o : outcome)   (* the [i]-th suspended computation resumes *)
  | PageHide
  | BeforeUnload.

Definition click (b : button) (w : world) : world :=
  match b, shown w with
  | NavHome, _ => showHome (showHome w)
  | NavAdmin, _ => renderAdminList (renderAdminList w)
  | StartDigitalKyc n, _ => Nat.iter (S n) renderCreateSession w
  | OpenAdmin n, _ => Nat.iter (S n) renderAdminList w
  | StartKyc, Home => renderCreateSession w
  | CancelToHome, CreateSession => showHome w
  | DocBtn attr, SelectDocument => click_doc attr w
  | BackToSelect, EnterDocNumber => renderSelectDocument w
  | UploadDocBtn, UploadDocument => click_upload_doc w
  | CancelUploadDoc, UploadDocument => click_cancel_upload w
  | DocCapture, UploadDocument =>
      if camera_wired (vid w) w then spawn (TToBlobDoc (vid w)) w else w
  | DocClose, UploadDocument =>
      if camera_wired (vid w) w then click_doc_close w else w
  | ProceedToSelfie, OcrProgress (OcrConfirm _) => renderSelfieUpload w
  | RetryUpload, OcrProgress (OcrConfirm _) => renderUploadDocument w
  | CaptureSelfie videoWidth, SelfieUpload => click_capture_selfie videoWidth w
  | UploadSelfie, SelfieUpload => click_upload_selfie w
  | CancelSelfie, SelfieUpload => click_cancel_selfie w
  | RefreshStatus, Status => loadStatus (vid w) w
  | ToHome, Status => showHome w
  | FilterApply fStatus fDoc fDate, AdminList => click_apply fStatus fDoc fDate w
  | FilterReset, AdminList => click_reset w
  | _, _ => w
  end.

Definition run (k : continuation) (w : world) : world :=
  match k with
  | RenderSelectDocument => renderSelectDocument w
  | RenderUploadDocument => renderUploadDocument w
  end.

(** ['Camera error: ' + (err.message || 'permission denied')] *)
Definition camera_error (v : nat) (e : error) (w : world) : world :=
  showMessage v (Append (Lit "Camera error: ") (Else (message e) "permission denied")) w.

(** The Capture and Close buttons of panel [p] get their listeners. *)
Definition wire (v p : nat) (w : world) : world :=
  match sourceArea (upload_of v w) with
  | CameraPanel p' _ => if Nat.eqb p p' then set_sourceArea v (CameraPanel p true) w else w
  | FileInput => w
  end.

(** The rest of a suspended computation; [None] when the outcome is not one
    the computation can be resumed with. *)
Definition resume (t : task) (o : outcome) (w : world) : option world :=
  match t, o with
  | TCreateSession v name mobile age, Fetched f =>
      Some (settle_create_session v name mobile age f w)
  | TSelectDocument v docType, Fetched f => Some (settle_select_document v docType f w)
  | TEnterDocNumber v docno, Fetched f => Some (settle_doc_number v docno f w)
  | TValidateDocument v, Fetched f => Some (settle_validate v f w)
  | TSelfie v, Fetched f => Some (settle_selfie v f w)
  | TStatus v, Fetched f => Some (settle_status v f w)
  (* lines 304-307 *)
  | TGetUserMediaDoc v p, Granted =>
      let '(s, w) := new_stream w in
      let w := set_localStream v (Some s) w in
      let w := with_st (set_activeStream (Some s)) w in
      Some (spawn (TPlayDoc v p) w)
  | TGetUserMediaDoc v _, Denied e => Some (camera_error v e w)
  | TPlayDoc v p, Played => Some (wire v p w)
  | TPlayDoc v _, PlayFailed e => Some (camera_error v e w)
  (* lines 449-452 *)
  | TGetUserMediaSelfie v, Granted =>
      let '(s, w) := new_stream w in
      let w := set_selfie v (mkSelfie (Some s) (capturedBlob (selfie_of v w))) w in
      let w := with_st (set_activeStream (Some s)) w in
      Some (spawn (TPlaySelfie v) w)
  | TGetUserMediaSelfie v, Denied e => Some (camera_error v e w)
  | TPlaySelfie v, Played => Some w
  | TPlaySelfie v, PlayFailed e => Some (camera_error v e w)
  | TToBlobDoc v, Blob b => Some (set_chosenFile v b w)
  | TToBlobSelfie v, Blob b =>
      Some (set_selfie v (mkSelfie (selfieStream (selfie_of v w)) b) w)
  | TTimer _ k, Fired => Some (run k w)
  | _, _ => None
  end.

Definition settle (i : nat) (o : outcome) (w : world) : world :=
  match tasks w !! i with
  | Some t => default w (resume t o (with_tasks (delete i (tasks w)) w))
  | None => w
  end.

Definition step (e : event) (w : world) : world :=
  match e, shown w with
  | Click b, _ => click b w
  | SubmitCreateSession i_name i_mobile i_age, CreateSession =>
      submit_create_session i_name i_mobile i_age w
  | SubmitDocNumber i_docno, EnterDocNumber => submit_doc_number i_docno w
  | SourceChange value, UploadDocument => change_source value w
  | FileChange f, UploadDocument =>
      match sourceArea (upload_of (vid w) w) with
      | FileInput => change_file f w
      | CameraPanel _ _ => w
      end
  | Settle i o, _ => settle i o w
  | PageHide, _ | BeforeUnload, _ => stopActiveStream w
  | _, _ => w
  end.

Definition steps (es : list event) (w : world) : world :=
  fold_left (fun w e => step e w) es w.

(** The page is loaded: [state], then [boot], which shows the home view.
    [stored] is what [localStorage] holds under the session key. *)
Definition boot (stored : option string) : world :=
  let sid := match stored with Some s => or (VString s) VNull | None => VNull end in
  showHome
    {| st := mkState sid VNull VNull VNull VNull VNull VNull None;
       localStorage := match stored with
                       | Some s => {[ storage_key := Lit s ]}
                       | None => ∅
                       end;
       shown := Home; vid := 0; banner := None;
       uploads := ∅; selfies := ∅; live := ∅; issued := 0; fresh := 0;
       tasks := []; requests := [] |}.

(** The worlds the program can be in. *)
Inductive reachable : world -> Prop :=
  | reachable_boot stored : reachable (boot stored)
  | reachable_step e w : reachable w -> reachable (step e w).

End Loop.
Export Loop.

(** ** Vocabulary of the properties *)

Module Props.

(** "Matches exactly 10 digits". *)
Definition ten_digits (s : string) : Prop :=
  String.length s = 10%nat /\ Forall (fun c => is_digit c = true) (String.list_ascii_of_string s).

(** "A valid integer": an optional sign and decimal digits, with nothing
    around them but white space; its value. *)
Definition integer_text (s : string) : option Z :=
  let '(sign, digits) := read_sign (trim s) in
  match digits_prefix digits 0 O with
  | (n, read) =>
      if negb (Nat.eqb read 0) && Nat.eqb read (String.length digits)
      then Some (sign * n) else None
  end.

(** The condition of the create-session form as the specification words
    it. *)
Definition valid_as_specified (i_name i_mobile i_age : string) : Prop :=
  trim i_name <> EmptyString /\ ten_digits (trim i_mobile) /\
  exists n, integer_text i_age = Some n /\ 18 <= n.

(** The condition the submit handler tests. *)
Definition valid_as_tested (i_name i_mobile i_age : string) : Prop :=
  trim i_name <> EmptyString /\ ten_digits (trim i_mobile) /\
  exists n, parseInt i_age = Some n /\ 18 <= n.

(** A handler sent a request. *)
Definition sent_request (before after : world) : Prop :=
  requests after <> requests before.

(** The session fields kept in [state]. *)
Definition session_fields (w : world) : value * value * value * value * value * value :=
  (sessionId (st w), name (st w), mobile (st w), age (st w),
   documentType (st w), documentNumber (st w)).


(** [v.k] of a value that is neither [null] nor [undefined]. *)
Definition field (v : value) (k : string) : value :=
  match get v k with Ok x => x | Throw _ => VUndefined end.





(** What [trimEnd] drops starts with a space. *)
Definition blank_tail (sp : string) : Prop :=
  match sp with
  | String c _ => is_space c = true
  | EmptyString => True
  end.

(** The days of month [m] (from 1) of year [y]. *)
Definition DaysInMonth (y m : Z) : Z :=
  if m =? 2 then (if DaysInYear y =? 366 then 29 else 28)
  else if (m =? 4) || (m =? 6) || (m =? 9) || (m =? 11) then 30
  else 31.

(** A day of the calendar, and the value a date field has for it when the
    year has four digits: [YYYY-MM-DD]. *)
Definition calendar_date (y m d : Z) : Prop :=
  1 <= m <= 12 /\ 1 <= d <= DaysInMonth y m.

Definition date_text (y m d : Z) : string :=
  pad 4 y +:+ "-" +:+ pad 2 m +:+ "-" +:+ pad 2 d.

(** The filters the status and document-type fields give. *)
Definition base_filters (fStatus fDoc : string) : list (string * string) :=
  (if String.eqb fStatus "" then [] else [("status", fStatus)]) ++
  (if String.eqb fDoc "" then [] else [("doc_type", fDoc)]).

(** A response with status 200 and the JSON body [v]. *)
Definition json_200 (v : value) : outcome :=
  Fetched (Responded (Response true 200 (Some "application/json") None (Ok v))).

(** From the loaded page to the upload view: a session is created for
    [{name: "A", mobile: "9876543210", age: 25}] and gets the identifier S1,
    PAN is selected, and the number ABCDE1234F is entered. *)
Definition to_upload_view : list event :=
  [ Click StartKyc;
    SubmitCreateSession "A" "9876543210" "25";
    Settle 0 (json_200 (VObject [("session_id", VString "S1")]));
    Settle 0 Fired;
    Click (DocBtn (Some "PAN"));
    Settle 0 (json_200 (VObject []));
    SubmitDocNumber "ABCDE1234F";
    Settle 0 (json_200 (VObject [])) ].

(** In the upload view the source selector goes to the camera, back to the
    file input and to the camera again before either [getUserMedia] call
    has resolved; then both resolve. *)
Definition switch_while_pending : list event :=
  [ SourceChange "camera"; SourceChange "file"; SourceChange "camera";
    Settle 0 Granted; Settle 0 Granted ].

(** In the upload view the camera is chosen and starts, a frame is
    captured, and the upload button is pressed. *)
Definition capture_and_upload : list event :=
  [ SourceChange "camera"; Settle 0 Granted; Settle 0 Played;
    Click DocCapture; Settle 0 (Blob (Some 7%nat)); Click UploadDocBtn ].

(** The stream the view shown holds in its closure; the OCR progress node
    has no closure of its own and inherits what [state] holds. *)
Definition holder (w : world) : option stream :=
  match shown w with
  | UploadDocument => localStream (upload_of (vid w) w)
  | SelfieUpload => selfieStream (selfie_of (vid w) w)
  | OcrProgress _ => activeStream (st w)
  | _ => None
  end.

(** Every running stream is the one [state.activeStream] holds, and it is
    the one the view shown holds. *)
Definition single_owner (w : world) : Prop :=
  (forall s, s ∈ live w -> activeStream (st w) = Some s) /\
  (forall s, s ∈ live w -> holder w = Some s).

(** No stream runs and none is held. *)
Definition quiet (w : world) : Prop :=
  live w = ∅ /\ activeStream (st w) = None.

(** The events of a run without interleaving: [getUserMedia] resolves in
    the view that called it, while [state] holds no stream, and the selfie
    request settles while its view is shown. *)
Definition calm (e : event) (w : world) : Prop :=
  match e with
  | Settle i Granted =>
      match tasks w !! i with
      | Some (TGetUserMediaDoc v _) =>
          v = vid w /\ shown w = UploadDocument /\ activeStream (st w) = None
      | Some (TGetUserMediaSelfie v) =>
          v = vid w /\ shown w = SelfieUpload /\ activeStream (st w) = None
      | _ => True
      end
  | Settle i (Fetched _) =>
      match tasks w !! i with
      | Some (TSelfie v) => v = vid w /\ shown w = SelfieUpload
      | _ => True
      end
  | _ => True
  end.

Fixpoint calm_run (es : list event) (w : world) : Prop :=
  match es with
  | [] => True
  | e :: es' => calm e w /\ calm_run es' (step e w)
  end.

(** Two worlds agree on the streams and on who holds them. *)
Definition same_streams (w' w : world) : Prop :=
  live w' = live w /\ activeStream (st w') = activeStream (st w) /\
  shown w' = shown w /\ vid w' = vid w /\
  (forall v, localStream (upload_of v w') = localStream (upload_of v w)) /\
  (forall v, selfieStream (selfie_of v w') = selfieStream (selfie_of v w)).

End Props.
Export Props.

(** ** Vocabulary of the further properties *)

Module More.

(** The three kinds of request the client makes: the creation of a
    session, the admin list, and the requests on a session, whose path names
    its identifier. *)
Definition path_of (r : request) : text :=
  match r with
  | PostJson p _ | PostForm p _ _ | Get p _ => p
  end.

Definition create_request (r : request) : Prop :=
  exists payload, r = PostJson (Lit "/api/v1/kyc/session") payload.

Definition admin_request (r : request) : Prop :=
  exists params, r = Get (Lit "/api/v1/admin/kyc/sessions") params.

Definition session_request (r : request) : Prop :=
  exists sid suffix,
    truthy sid = true /\
    path_of r = Append (Lit "/api/v1/kyc/session/") (Append (Str sid) (Lit suffix)).

Definition known_request (r : request) : Prop :=
  create_request r \/ admin_request r \/ session_request r.

(** What a run has collected: the session fields and the last OCR
    response. *)
Definition data_fields (w : world) :
    value * value * value * value * value * value * value :=
  (session_fields w, lastOcrResponse (st w)).

(** Two worlds hold the same data and the same storage. *)
Definition same_data (w' w : world) : Prop :=
  localStorage w' = localStorage w /\ data_fields w' = data_fields w.

(** The requests of [w'] are those of [w] and then requests of the three
    kinds. *)
Definition grows (w' w : world) : Prop :=
  exists sent, requests w' = requests w ++ sent /\ Forall known_request sent.

Definition benign (w' w : world) : Prop := same_data w' w /\ grows w' w.


(** What the creation of a session writes, together. *)
Definition session_slot (w : world) : value * value * value * value * gmap string text :=
  (sessionId (st w), name (st w), mobile (st w), age (st w), localStorage w).

(** The suspended computation an event resumes with a settled request. *)
Definition resumed (e : event) (w : world) : option task :=
  match e with
  | Settle i (Fetched _) => tasks w !! i
  | _ => None
  end.

(** A request that did not succeed: the [fetch] was rejected, or the
    status of the response is not a success. *)
Definition failed (f : fetched) : Prop :=
  match f with
  | Rejected _ => True
  | Responded res => ok res = false
  end.

(** The node whose message element a handler reports a failure in, for the
    handlers that do nothing else on a failure. *)
Definition reports_in (t : task) : option nat :=
  match t with
  | TCreateSession v _ _ _ | TSelectDocument v _ | TEnterDocNumber v _
  | TSelfie v | TStatus v => Some v
  | _ => None
  end.

(** The stream the closure of the upload view shown holds, as a condition
    on streams. *)
Definition own_stream (w : world) (s : stream) : Prop :=
  localStream (upload_of (vid w) w) = Some s.



(** The text of a response whose body is not JSON, as the upload handler
    shows it; the generic text when there is none. *)
Definition plain_reason (res : response) : string :=
  match res_text res with
  | Some txt => if String.eqb txt "" then generic_mismatch else txt
  | None => generic_mismatch
  end.


(** The view a timer's callback renders. *)
Definition rendered_by (k : continuation) : page :=
  match k with
  | RenderSelectDocument => SelectDocument
  | RenderUploadDocument => UploadDocument
  end.

End More.
Export More.

(** * Properties *)

(** ** Form validation *)

Section FormValidation.

Lemma digits_then_end_spec (n : nat) (s : string) :
  digits_then_end n s = true <->
  String.length s = n /\ Forall (fun c => is_digit c = true) (String.list_ascii_of_string s).
Proof.
  revert s. induction n as [|n IH]; intros [|c s]; simpl.
  - split; [intros _; split; [reflexivity | constructor] | reflexivity].
  - split; [discriminate | intros [H _]; discriminate].
  - split; [discriminate | intros [H _]; discriminate].
  - rewrite andb_true_iff, IH. split.
    + intros [Hc [Hl Hf]]. split; [congruence | constructor; assumption].
    + intros [Hl Hf]. inversion Hf; subst. repeat split; [assumption | congruence | assumption].
Qed.

Lemma test_ten_digits_spec (s : string) : test_ten_digits s = true <-> ten_digits s.
Proof. apply digits_then_end_spec. Qed.

Lemma append_one_ne {A : Type} (l : list A) (x : A) : l ++ [x] <> l.
Proof.
  intros H. apply (f_equal length) in H. rewrite length_app in H. simpl in H. lia.
Qed.

(** The submit handler, case by case. *)
Lemma submit_create_session_cases (w : world) (i_name i_mobile i_age : string) :
  let w' := submit_create_session i_name i_mobile i_age w in
  (valid_as_tested i_name i_mobile i_age /\
   exists n, parseInt i_age = Some n /\
     requests w' = requests w ++
       [PostJson (Lit "/api/v1/kyc/session")
                 [("name", VString (trim i_name)); ("mobile", VString (trim i_mobile))]] /\
     tasks w' = tasks w ++ [TCreateSession (vid w) (trim i_name) (trim i_mobile) n])
  \/
  (~ valid_as_tested i_name i_mobile i_age /\
   requests w' = requests w /\ tasks w' = tasks w /\ st w' = st w /\
   localStorage w' = localStorage w /\ shown w' = shown w /\
   (banner w' = Some (Lit "Enter a valid name and 10-digit mobile.") \/
    banner w' = Some underage)).
Proof.
  unfold submit_create_session, valid_as_tested, showMessage.
  rewrite Nat.eqb_refl.
  destruct (String.eqb_spec (trim i_name) "") as [Hn|Hn]; simpl.
  { right. split; [intros [H _]; contradiction | auto 10]. }
  destruct (test_ten_digits (trim i_mobile)) eqn:Hm; simpl.
  2:{ right. split; [|auto 10].
      intros (_ & H & _). apply test_ten_digits_spec in H. congruence. }
  apply test_ten_digits_spec in Hm.
  destruct (parseInt i_age) as [a|] eqn:Ha; simpl.
  2:{ right. split; [|auto 10]. intros (_ & _ & n & H & _). discriminate. }
  destruct (Z.ltb_spec a 18) as [Hlt|Hge]; simpl.
  { right. split; [|auto 10]. intros (_ & _ & n & H & Hn18). injection H as <-. lia. }
  left. split; [eauto 10|]. exists a. auto.
Qed.

Lemma space_not_digit (c : ascii) : is_space c = true -> is_digit c = false.
Proof. destruct c as [[] [] [] [] [] [] [] []]; vm_compute; congruence. Qed.

Lemma space_not_sign (c : ascii) : is_space c = true -> c <> "-"%char /\ c <> "+"%char.
Proof. destruct c as [[] [] [] [] [] [] [] []]; vm_compute; split; congruence. Qed.

Lemma trimEnd_split (s : string) : exists sp, s = trimEnd s +:+ sp /\ blank_tail sp.
Proof.
  induction s as [|c rest (sp & Hrest & Hsp)]; simpl.
  - exists EmptyString. split; [reflexivity | exact I].
  - destruct (trimEnd rest) as [|k kept] eqn:Hk.
    + simpl in Hrest. destruct (is_space c) eqn:Hc.
      * exists (String c rest). split; [reflexivity | exact Hc].
      * exists rest. split; [reflexivity | rewrite Hrest; exact Hsp].
    + exists sp. split; [rewrite Hrest at 1; reflexivity | exact Hsp].
Qed.

(** A run of digits that ends the text is read the same when something
    that is not a digit follows it. *)
Lemma digits_prefix_whole (s sp : string) (acc : Z) (read : nat) (n : Z) :
  digits_prefix s acc read = (n, (read + String.length s)%nat) ->
  blank_tail sp ->
  digits_prefix (s +:+ sp) acc read = (n, (read + String.length s)%nat).
Proof.
  revert acc read. induction s as [|c rest IH]; intros acc read H Hsp; simpl in *.
  - destruct sp as [|c sp]; simpl; [exact H|].
    rewrite (space_not_digit c Hsp). exact H.
  - destruct (is_digit c).
    + replace (read + S (String.length rest))%nat
        with (S read + String.length rest)%nat in * by lia.
      apply IH; assumption.
    + injection H as _ H. lia.
Qed.

Lemma read_sign_app (t sp : string) :
  t <> EmptyString ->
  read_sign (t +:+ sp) = (fst (read_sign t), snd (read_sign t) +:+ sp).
Proof.
  destruct t as [|c rest]; [congruence|]. intros _.
  destruct c as [[] [] [] [] [] [] [] []]; reflexivity.
Qed.

Lemma integer_text_parseInt (s : string) (n : Z) :
  integer_text s = Some n -> parseInt s = Some n.
Proof.
  unfold integer_text, parseInt, trim.
  destruct (trimEnd_split (trimStart s)) as (sp & Hs & Hsp).
  set (t := trimEnd (trimStart s)) in *. rewrite Hs. clearbody t. clear Hs.
  destruct t as [|c rest]; [discriminate|].
  rewrite read_sign_app by discriminate.
  destruct (read_sign (String c rest)) as [sign digits]. simpl fst. simpl snd.
  destruct (digits_prefix digits 0 0) as [m read] eqn:Hd.
  destruct (Nat.eqb_spec read 0) as [|Hnz]; simpl; [discriminate|].
  destruct (Nat.eqb_spec read (String.length digits)) as [Hl|]; [|discriminate].
  intros H. subst read.
  rewrite (digits_prefix_whole digits sp 0 0 m Hd Hsp). simpl.
  destruct (String.length digits); [contradiction | exact H].
Qed.

End FormValidation.

(** C3, as amended: a create-session request is sent exactly when the
    trimmed name is non-empty, the trimmed mobile value is exactly 10 decimal
    digits, and [parseInt] of the age text (the integer read at its start,
    after optional white space and a sign, whatever follows the digits) is
    a number >= 18.  Every other submission shows a local message and sends
    nothing.  An age text that is a valid integer is read as that integer,
    and one [parseInt] cannot read is not a valid integer. *)
Theorem create_session_request_iff (w : world) (i_name i_mobile i_age : string) :
  let w' := submit_create_session i_name i_mobile i_age w in
  (sent_request w w' <-> valid_as_tested i_name i_mobile i_age) /\
  (~ valid_as_tested i_name i_mobile i_age ->
     requests w' = requests w /\ tasks w' = tasks w /\ st w' = st w /\
     localStorage w' = localStorage w /\
     (banner w' = Some (Lit "Enter a valid name and 10-digit mobile.") \/
      banner w' = Some underage)) /\
  (forall n, integer_text i_age = Some n -> parseInt i_age = Some n) /\
  (parseInt i_age = None -> integer_text i_age = None).
Proof.
  cbv zeta. unfold sent_request.
  assert (Hint : forall n, integer_text i_age = Some n -> parseInt i_age = Some n)
    by (intros n; apply integer_text_parseInt).
  assert (Hnone : parseInt i_age = None -> integer_text i_age = None).
  { intros H. destruct (integer_text i_age) as [m|] eqn:Hm; [|reflexivity].
    rewrite (Hint m eq_refl) in H. discriminate. }
  destruct (submit_create_session_cases w i_name i_mobile i_age)
    as [(Hv & n & Hn & Hr & Ht) | (Hv & Hr & Ht & Hs & Hl & _ & Hb)].
  - split; [split|split; [|split]]; try assumption.
    + intros _. exact Hv.
    + intros _. rewrite Hr. apply append_one_ne.
    + intros H. contradiction.
  - split; [split|split; [|split]]; try assumption.
    + intros H. contradiction.
    + intros H. contradiction.
    + intros _. auto.
Qed.

(** C3, as stated, fails: with a valid name and mobile, the age text
    "18.5" is not a valid integer, yet the request is sent. *)
Lemma create_session_accepts_fraction :
  let w := step (Click StartKyc) (boot None) in
  shown w = CreateSession /\
  ~ (sent_request w (step (SubmitCreateSession "A" "9876543210" "18.5") w) <->
     valid_as_specified "A" "9876543210" "18.5").
Proof.
  split; [reflexivity|].
  intros [H _].
  assert (Hs : sent_request (step (Click StartKyc) (boot None))
                 (step (SubmitCreateSession "A" "9876543210" "18.5")
                       (step (Click StartKyc) (boot None)))).
  { unfold sent_request. vm_compute. discriminate. }
  destruct (H Hs) as (_ & _ & n & Hn & _). vm_compute in Hn. discriminate.
Qed.

(** ** Session creation *)

Section SessionCreation.

(** [apiFetch] returns a body only for a response with a success status. *)
Lemma apiFetch_Ok (f : fetched) (body : value) :
  apiFetch f = Ok body -> exists res, f = Responded res /\ ok res = true.
Proof.
  destruct f as [res|e]; simpl; [|discriminate].
  intros H. exists res. split; [reflexivity|].
  destruct (ok res); [reflexivity|]. exfalso. simpl in H.
  destruct (if is_json res then res_json res else _) as [b|]; simpl in H; [|discriminate].
  destruct (if truthy b then _ else _); simpl in H; discriminate.
Qed.

Lemma apiFetch_not_ok (res : response) :
  ok res = false -> exists e, apiFetch (Responded res) = Throw e.
Proof.
  intros H. destruct (apiFetch (Responded res)) as [body|e] eqn:Hf; [|eauto].
  apply apiFetch_Ok in Hf as (res' & [= <-] & Hok). congruence.
Qed.

(** The identifier the handler takes is a truthy one among the three
    fields of the body. *)
Lemma session_id_of_Ok (f : fetched) (sid : value) :
  session_id_of f = Ok sid ->
  truthy sid = true /\
  exists body, apiFetch f = Ok body /\
    (sid = field body "session_id" \/ sid = field body "sessionId" \/ sid = field body "id").
Proof.
  unfold session_id_of, field. destruct (apiFetch f) as [body|]; simpl; [|discriminate].
  destruct (get body "session_id") as [a|] eqn:Ha; simpl; [|discriminate].
  destruct (get body "sessionId") as [b|] eqn:Hb; simpl; [|discriminate].
  destruct (get body "id") as [c|] eqn:Hc; simpl; [|discriminate].
  destruct (truthy (or (or a b) c)) eqn:Ht; simpl; [|discriminate].
  intros [= <-]. split; [exact Ht|]. exists body. split; [reflexivity|].
  rewrite Ha, Hb, Hc. unfold or.
  destruct (truthy a) eqn:Hta; simpl; [rewrite Hta; auto|].
  destruct (truthy b) eqn:Htb; simpl; rewrite ?Htb; auto.
Qed.




End SessionCreation.



(** ** Document upload *)

Section DocumentUpload.














End DocumentUpload.



Section RetryLoop.

Lemma upload_of_set_upload (v : nat) (c : upload_closure) (w : world) :
  upload_of v (set_upload v c w) = c.
Proof. unfold upload_of, set_upload. simpl. rewrite lookup_insert_eq. reflexivity. Qed.

Lemma renderUploadDocument_eq (w : world) :
  renderUploadDocument w =
  let w1 := setMain UploadDocument (stopActiveStream w) in
  set_upload (vid w1) (mkUpload None None FileInput)
    (with_st (set_activeStream None)
       (set_upload (vid w1) (mkUpload None None FileInput) w1)).
Proof.
  unfold renderUploadDocument. cbv zeta.
  generalize (setMain UploadDocument (stopActiveStream w)). intros w1.
  generalize (vid w1). intros v.
  unfold setupFileInput, stopLocalCamera, set_sourceArea.
  rewrite upload_of_set_upload. simpl localStream. cbv iota.
  change (upload_of v (with_st (set_activeStream None) ?x)) with (upload_of v x).
  rewrite upload_of_set_upload. reflexivity.
Qed.

Lemma renderUploadDocument_frame (w : world) :
  let w' := renderUploadDocument w in
  shown w' = UploadDocument /\ tasks w' = tasks w /\ requests w' = requests w /\
  session_fields w' = session_fields w /\ localStorage w' = localStorage w /\
  upload_of (vid w') w' = mkUpload None None FileInput.
Proof.
  cbv zeta. rewrite renderUploadDocument_eq. cbv zeta.
  split; [reflexivity|]. unfold stopActiveStream, session_fields.
  destruct (activeStream (st w)); simpl;
    (repeat split; try reflexivity);
    unfold upload_of; simpl; rewrite lookup_insert_eq; reflexivity.
Qed.



End RetryLoop.



(** ** Selfie *)

Section Selfie.





End Selfie.



(** ** Backward navigation *)

Section Navigation.

Lemma session_fields_stopActiveStream (w : world) :
  session_fields (stopActiveStream w) = session_fields w.
Proof. unfold stopActiveStream. destruct (activeStream (st w)); reflexivity. Qed.

Lemma frame_stopActiveStream (w : world) :
  localStorage (stopActiveStream w) = localStorage w /\
  requests (stopActiveStream w) = requests w /\
  tasks (stopActiveStream w) = tasks w /\
  lastOcrResponse (st (stopActiveStream w)) = lastOcrResponse (st w).
Proof. unfold stopActiveStream. destruct (activeStream (st w)); repeat split; reflexivity. Qed.

Lemma frame_stopLocalCamera (v : nat) (w : world) :
  session_fields (stopLocalCamera v w) = session_fields w /\
  localStorage (stopLocalCamera v w) = localStorage w /\
  requests (stopLocalCamera v w) = requests w /\
  tasks (stopLocalCamera v w) = tasks w /\
  lastOcrResponse (st (stopLocalCamera v w)) = lastOcrResponse (st w).
Proof.
  unfold stopLocalCamera. destruct (localStream (upload_of v w)); repeat split; reflexivity.
Qed.

Lemma frame_stopCamera (v : nat) (w : world) :
  session_fields (stopCamera v w) = session_fields w /\
  localStorage (stopCamera v w) = localStorage w /\
  requests (stopCamera v w) = requests w /\
  tasks (stopCamera v w) = tasks w /\
  lastOcrResponse (st (stopCamera v w)) = lastOcrResponse (st w).
Proof.
  unfold stopCamera. destruct (selfieStream (selfie_of v w)); repeat split; reflexivity.
Qed.

Lemma frame_setMain (p : page) (w : world) :
  session_fields (setMain p w) = session_fields w /\
  localStorage (setMain p w) = localStorage w /\
  requests (setMain p w) = requests w /\
  tasks (setMain p w) = tasks w /\
  lastOcrResponse (st (setMain p w)) = lastOcrResponse (st w) /\
  shown (setMain p w) = p.
Proof. repeat split; reflexivity. Qed.

Lemma lastOcrResponse_renderUploadDocument (w : world) :
  lastOcrResponse (st (renderUploadDocument w)) = lastOcrResponse (st w).
Proof.
  rewrite renderUploadDocument_eq. cbv zeta. simpl.
  apply frame_stopActiveStream.
Qed.

End Navigation.

(** C9: the "back to select document" button, the "cancel upload" button
    and the selfie cancel button leave the session identifier, name, mobile,
    age, document type and document number of [state] as they were, and
    with them [localStorage], the last OCR response, the requests sent and
    the pending computations; each shows another view. *)
Theorem backward_navigation_keeps_session (w : world) :
  (shown w = EnterDocNumber ->
     let w' := step (Click BackToSelect) w in
     shown w' = SelectDocument /\ session_fields w' = session_fields w /\
     localStorage w' = localStorage w /\ requests w' = requests w /\
     tasks w' = tasks w /\ lastOcrResponse (st w') = lastOcrResponse (st w)) /\
  (shown w = UploadDocument ->
     let w' := step (Click CancelUploadDoc) w in
     shown w' = Home /\ session_fields w' = session_fields w /\
     localStorage w' = localStorage w /\ requests w' = requests w /\
     tasks w' = tasks w /\ lastOcrResponse (st w') = lastOcrResponse (st w)) /\
  (shown w = SelfieUpload ->
     let w' := step (Click CancelSelfie) w in
     shown w' = UploadDocument /\ session_fields w' = session_fields w /\
     localStorage w' = localStorage w /\ requests w' = requests w /\
     tasks w' = tasks w /\ lastOcrResponse (st w') = lastOcrResponse (st w)).
Proof.
  split; [|split]; intros Hshown; cbv zeta; simpl; unfold click; rewrite Hshown.
  - unfold renderSelectDocument.
    destruct (frame_setMain SelectDocument (stopActiveStream w)) as (-> & -> & -> & -> & -> & ->).
    destruct (frame_stopActiveStream w) as (-> & -> & -> & ->).
    rewrite session_fields_stopActiveStream. repeat split; reflexivity.
  - unfold click_cancel_upload, showHome.
    destruct (frame_setMain Home (stopActiveStream (stopLocalCamera (vid w) w)))
      as (-> & -> & -> & -> & -> & ->).
    destruct (frame_stopActiveStream (stopLocalCamera (vid w) w)) as (-> & -> & -> & ->).
    rewrite session_fields_stopActiveStream.
    destruct (frame_stopLocalCamera (vid w) w) as (-> & -> & -> & -> & ->).
    repeat split; reflexivity.
  - unfold click_cancel_selfie.
    destruct (renderUploadDocument_frame (stopCamera (vid w) w))
      as (-> & -> & -> & -> & -> & _).
    rewrite lastOcrResponse_renderUploadDocument.
    destruct (frame_stopCamera (vid w) w) as (-> & -> & -> & -> & ->).
    repeat split; reflexivity.
Qed.

(** C9 in the selfie view entered with the session S1 stored. *)
Lemma backward_navigation_keeps_session_witness :
  let w := renderSelfieUpload (boot (Some "S1")) in
  shown (step (Click CancelSelfie) w) = UploadDocument /\
  session_fields (step (Click CancelSelfie) w) = session_fields w.
Proof.
  cbv zeta.
  destruct (backward_navigation_keeps_session (renderSelfieUpload (boot (Some "S1"))))
    as (_ & _ & H).
  destruct (H eq_refl) as (H1 & H2 & _). split; assumption.
Defined.

(** ** Moderation *)

Section Moderation.




End Moderation.



(** ** Camera streams *)

Section Streams.

Lemma reachable_steps (es : list event) (w : world) :
  reachable w -> reachable (steps es w).
Proof.
  revert w. induction es as [|e es IH]; intros w Hw; simpl; [exact Hw|].
  apply IH, reachable_step, Hw.
Qed.

(** Releasing is a no-op when no stream is held, and idempotent. *)
Lemma stopActiveStream_none (w : world) :
  activeStream (st w) = None -> stopActiveStream w = w.
Proof. unfold stopActiveStream. intros ->. reflexivity. Qed.

Lemma stopActiveStream_released (w : world) :
  activeStream (st (stopActiveStream w)) = None /\
  forall s, activeStream (st w) = Some s -> s ∉ live (stopActiveStream w).
Proof.
  unfold stopActiveStream. destruct (activeStream (st w)) as [s|] eqn:Hs; simpl.
  - split; [reflexivity|]. intros s' [= <-].
    apply not_elem_of_difference. right. apply elem_of_singleton. reflexivity.
  - split; [assumption | discriminate].
Qed.

Lemma stopActiveStream_idempotent (w : world) :
  stopActiveStream (stopActiveStream w) = stopActiveStream w.
Proof. apply stopActiveStream_none, stopActiveStream_released. Qed.

(** X5. Every view function releases the stream [state.activeStream]
    holds before it shows its view. *)
Lemma views_release_on_entry (w : world) (render : world -> world) :
  In render [showHome; renderCreateSession; renderSelectDocument;
             renderEnterDocNumber; renderUploadDocument; renderSelfieUpload;
             renderStatusPage; renderAdminList] ->
  activeStream (st (render w)) = None /\
  forall s, activeStream (st w) = Some s -> s ∉ live (render w).
Proof.
  destruct (stopActiveStream_released w) as [Hnone Hdead].
  simpl. intros [<-|[<-|[<-|[<-|[<-|[<-|[<-|[<-|[]]]]]]]]].
  - split; [exact Hnone | exact Hdead].
  - split; [exact Hnone | exact Hdead].
  - split; [exact Hnone | exact Hdead].
  - split; [exact Hnone | exact Hdead].
  - rewrite renderUploadDocument_eq. cbv zeta. split; [reflexivity | exact Hdead].
  - split; [exact Hnone | exact Hdead].
  - unfold renderStatusPage, loadStatus, showMessage. cbv zeta.
    destruct (negb _); [destruct (Nat.eqb _ _)|]; (split; [exact Hnone | exact Hdead]).
  - split; [exact Hnone | exact Hdead].
Qed.

(** X5 on the selfie view, entered while the camera of the upload view is
    running. *)
Lemma views_release_on_entry_witness :
  let w := steps (to_upload_view ++ removelast capture_and_upload) (boot None) in
  activeStream (st w) = Some 0%nat /\
  activeStream (st (renderSelfieUpload w)) = None /\
  0%nat ∉ live (renderSelfieUpload w).
Proof.
  cbv zeta. split; [reflexivity|].
  destruct (views_release_on_entry
              (steps (to_upload_view ++ removelast capture_and_upload) (boot None))
              renderSelfieUpload) as [H1 H2].
  - simpl. auto 10.
  - split; [exact H1 | apply H2; reflexivity].
Defined.

End Streams.

(** ** One stream at a time, without interleaving *)

Section Discipline.

Lemma same_streams_refl (w : world) : same_streams w w.
Proof. repeat split; reflexivity. Qed.

Lemma same_streams_trans (w1 w2 w3 : world) :
  same_streams w2 w1 -> same_streams w3 w2 -> same_streams w3 w1.
Proof.
  intros (A1 & A2 & A3 & A4 & A5 & A6) (B1 & B2 & B3 & B4 & B5 & B6).
  repeat split; try congruence.
  all: intros v; first [rewrite B5; apply A5 | rewrite B6; apply A6].
Qed.

Lemma holder_same_streams (w' w : world) : same_streams w' w -> holder w' = holder w.
Proof.
  intros (_ & H2 & H3 & H4 & H5 & H6). unfold holder. rewrite H3, H4, H2, H5, H6.
  reflexivity.
Qed.

Lemma single_owner_same_streams (w' w : world) :
  same_streams w' w -> single_owner w -> single_owner w'.
Proof.
  intros Hs [HI HJ]. pose proof (holder_same_streams w' w Hs) as Hh.
  destruct Hs as (H1 & H2 & _). unfold single_owner. rewrite H1, H2, Hh. auto.
Qed.

Lemma quiet_same_streams (w' w : world) : same_streams w' w -> quiet w -> quiet w'.
Proof. intros (H1 & H2 & _) [Hl Ha]. unfold quiet. rewrite H1, H2. auto. Qed.

Lemma no_stream (X : gset stream) : (forall x, x ∈ X -> False) -> X = ∅.
Proof.
  intros H. apply set_eq. intros x.
  split; [intros Hx; destruct (H x Hx) | intros Hx; destruct (not_elem_of_empty x Hx)].
Qed.

Lemma quiet_single_owner (w : world) : quiet w -> single_owner w.
Proof.
  intros [Hl _]. unfold single_owner. rewrite Hl.
  split; intros s Hs; destruct (not_elem_of_empty s Hs).
Qed.

(** The primitives that touch no stream. *)
Lemma same_streams_showMessage v t w : same_streams (showMessage v t w) w.
Proof. unfold showMessage. destruct (Nat.eqb v (vid w)); repeat split; reflexivity. Qed.

Lemma same_streams_spawn t w : same_streams (spawn t w) w.
Proof. repeat split; reflexivity. Qed.

Lemma same_streams_send r w : same_streams (send r w) w.
Proof. repeat split; reflexivity. Qed.

Lemma same_streams_with_tasks l w : same_streams (with_tasks l w) w.
Proof. repeat split; reflexivity. Qed.

Lemma upload_of_set_upload_ne (v v' : nat) (c : upload_closure) (w : world) :
  v <> v' -> upload_of v' (set_upload v c w) = upload_of v' w.
Proof.
  intros Hne. unfold upload_of, set_upload. simpl.
  rewrite lookup_insert_ne by assumption. reflexivity.
Qed.

Lemma same_streams_set_upload v c w :
  localStream c = localStream (upload_of v w) -> same_streams (set_upload v c w) w.
Proof.
  intros Hc. repeat split; try reflexivity. intros v'.
  destruct (Nat.eq_dec v v') as [<-|Hne].
  - rewrite upload_of_set_upload. exact Hc.
  - rewrite upload_of_set_upload_ne by assumption. reflexivity.
Qed.

Lemma same_streams_set_chosenFile v f w : same_streams (set_chosenFile v f w) w.
Proof. apply same_streams_set_upload. reflexivity. Qed.

Lemma same_streams_set_sourceArea v a w : same_streams (set_sourceArea v a w) w.
Proof. apply same_streams_set_upload. reflexivity. Qed.

Lemma selfie_of_set_selfie (v : nat) (c : selfie_closure) (w : world) :
  selfie_of v (set_selfie v c w) = c.
Proof. unfold selfie_of, set_selfie. simpl. rewrite lookup_insert_eq. reflexivity. Qed.

Lemma selfie_of_set_selfie_ne (v v' : nat) (c : selfie_closure) (w : world) :
  v <> v' -> selfie_of v' (set_selfie v c w) = selfie_of v' w.
Proof.
  intros Hne. unfold selfie_of, set_selfie. simpl.
  rewrite lookup_insert_ne by assumption. reflexivity.
Qed.

Lemma same_streams_set_selfie v c w :
  selfieStream c = selfieStream (selfie_of v w) -> same_streams (set_selfie v c w) w.
Proof.
  intros Hc. repeat split; try reflexivity. intros v'.
  destruct (Nat.eq_dec v v') as [<-|Hne].
  - rewrite selfie_of_set_selfie. exact Hc.
  - rewrite selfie_of_set_selfie_ne by assumption. reflexivity.
Qed.

Lemma same_streams_with_st (f : State -> State) (w : world) :
  (forall s, activeStream (f s) = activeStream s) -> same_streams (with_st f w) w.
Proof. intros Hf. repeat split; try reflexivity. simpl. apply Hf. Qed.

Lemma same_streams_setItem k x w : same_streams (setItem k x w) w.
Proof. repeat split; reflexivity. Qed.

(** Releasing what [state] holds leaves nothing running. *)
Lemma quiet_stopActiveStream (w : world) :
  (forall s, s ∈ live w -> activeStream (st w) = Some s) -> quiet (stopActiveStream w).
Proof.
  intros HI. unfold stopActiveStream, quiet.
  destruct (activeStream (st w)) as [a|] eqn:Ha; simpl.
  - split; [|reflexivity]. apply no_stream. intros x.
    rewrite elem_of_difference, elem_of_singleton.
    intros [Hx Hne]. specialize (HI x Hx). congruence.
  - split; [|assumption]. apply no_stream.
    intros x Hx. specialize (HI x Hx). discriminate.
Qed.

Lemma quiet_setMain p w : quiet w -> quiet (setMain p w).
Proof. intros H. exact H. Qed.

Lemma quiet_render (w : world) (render : world -> world) :
  In render [showHome; renderCreateSession; renderSelectDocument;
             renderEnterDocNumber; renderUploadDocument; renderSelfieUpload;
             renderStatusPage; renderAdminList] ->
  (forall s, s ∈ live w -> activeStream (st w) = Some s) -> quiet (render w).
Proof.
  intros Hin HI. pose proof (quiet_stopActiveStream w HI) as Hq.
  simpl in Hin. destruct Hin as [<-|[<-|[<-|[<-|[<-|[<-|[<-|[<-|[]]]]]]]]];
    try exact Hq.
  - rewrite renderUploadDocument_eq. cbv zeta. destruct Hq as [Hl _].
    split; [exact Hl | reflexivity].
  - unfold renderStatusPage, loadStatus. cbv zeta.
    destruct (negb _).
    + eapply quiet_same_streams; [apply same_streams_showMessage | exact Hq].
    + exact Hq.
Qed.

End Discipline.

Ltac streams :=
  repeat first
    [ apply same_streams_refl
    | eapply same_streams_trans;
      [| first [ apply same_streams_showMessage
               | apply same_streams_spawn
               | apply same_streams_send
               | apply same_streams_with_tasks
               | apply same_streams_set_chosenFile
               | apply same_streams_set_sourceArea
               | apply same_streams_setItem
               | apply same_streams_with_st; intros; reflexivity ] ] ].

Section Handlers.


Lemma same_streams_click_doc attr w : same_streams (click_doc attr w) w.
Proof. unfold click_doc. cbv zeta. destruct (negb _); streams. Qed.

Lemma same_streams_submit_create_session a b c w :
  same_streams (submit_create_session a b c w) w.
Proof.
  unfold submit_create_session. cbv zeta.
  destruct (_ || _); [streams|]. destruct (parseInt c) as [n|]; [|streams].
  destruct (n <? 18); streams.
Qed.

Lemma same_streams_submit_doc_number a w : same_streams (submit_doc_number a w) w.
Proof.
  unfold submit_doc_number. cbv zeta.
  destruct (String.eqb _ _); [streams|]. destruct (negb _); streams.
Qed.

Lemma same_streams_settle_create_session v a b c f w :
  same_streams (settle_create_session v a b c f w) w.
Proof. unfold settle_create_session. destruct (session_id_of f); streams. Qed.

Lemma same_streams_loadStatus v w : same_streams (loadStatus v w) w.
Proof. unfold loadStatus. destruct (negb _); streams. Qed.

Lemma same_streams_settle_status v f w : same_streams (settle_status v f w) w.
Proof. unfold settle_status. destruct (bind _ _); streams. Qed.

Lemma same_streams_click_capture_selfie x w :
  same_streams (click_capture_selfie x w) w.
Proof. unfold click_capture_selfie. cbv zeta. destruct (x =? 0); streams. Qed.

Lemma same_streams_click_upload_selfie w : same_streams (click_upload_selfie w) w.
Proof.
  unfold click_upload_selfie. cbv zeta.
  destruct (capturedBlob _); [|streams]. destruct (negb _); streams.
Qed.

Lemma same_streams_setupCameraCapture v w : same_streams (setupCameraCapture v w) w.
Proof.
  unfold setupCameraCapture, new_node. streams. repeat split; reflexivity.
Qed.

Lemma same_streams_loadSessions f w : same_streams (loadSessions f w) w.
Proof. unfold loadSessions. streams. Qed.

Lemma same_streams_click_apply a b c w : same_streams (click_apply a b c w) w.
Proof.
  unfold click_apply. destruct (getCurrentFilters a b c);
    [apply same_streams_loadSessions | apply same_streams_refl].
Qed.

Lemma same_streams_wire v p w : same_streams (wire v p w) w.
Proof.
  unfold wire. destruct (sourceArea _); [streams|]. destruct (Nat.eqb _ _); streams.
Qed.

Lemma same_streams_camera_error v e w : same_streams (camera_error v e w) w.
Proof. unfold camera_error. streams. Qed.

(** The renders. *)
Lemma single_owner_render (w : world) (render : world -> world) :
  In render [showHome; renderCreateSession; renderSelectDocument;
             renderEnterDocNumber; renderUploadDocument; renderSelfieUpload;
             renderStatusPage; renderAdminList] ->
  (forall s, s ∈ live w -> activeStream (st w) = Some s) -> single_owner (render w).
Proof. intros Hin HI. apply quiet_single_owner, quiet_render; assumption. Qed.

Lemma single_owner_iter (n : nat) (w : world) (render : world -> world) :
  In render [showHome; renderCreateSession; renderSelectDocument;
             renderEnterDocNumber; renderUploadDocument; renderSelfieUpload;
             renderStatusPage; renderAdminList] ->
  single_owner w -> single_owner (Nat.iter n render w).
Proof.
  intros Hin. induction n as [|n IH]; intros Hw; simpl; [exact Hw|].
  apply single_owner_render; [assumption|]. apply IH. exact Hw.
Qed.

(** Releasing the camera of the view shown. *)
Lemma quiet_stopLocalCamera (w : world) :
  single_owner w -> shown w = UploadDocument -> quiet (stopLocalCamera (vid w) w).
Proof.
  intros [HI HJ] Hshown. unfold holder in HJ. rewrite Hshown in HJ.
  unfold stopLocalCamera, quiet.
  destruct (localStream (upload_of (vid w) w)) as [s|]; simpl.
  - split; [|reflexivity]. apply no_stream. intros x.
    rewrite elem_of_difference, elem_of_singleton.
    intros [Hx Hne]. specialize (HJ x Hx). congruence.
  - split; [|reflexivity]. apply no_stream.
    intros x Hx. specialize (HJ x Hx). discriminate.
Qed.

Lemma quiet_stopLocalCamera_again (v : nat) (w : world) :
  quiet w -> quiet (stopLocalCamera v w).
Proof.
  intros [Hl Ha]. unfold stopLocalCamera, quiet.
  destruct (localStream (upload_of v w)) as [s|]; simpl; rewrite Hl;
    (split; [|reflexivity]); [|reflexivity].
  apply no_stream. intros x. rewrite elem_of_difference.
  intros [Hx _]. destruct (not_elem_of_empty x Hx).
Qed.

Lemma tracked_stopCamera (w : world) :
  single_owner w -> shown w = SelfieUpload ->
  forall s, s ∈ live (stopCamera (vid w) w) ->
            activeStream (st (stopCamera (vid w) w)) = Some s.
Proof.
  intros [HI HJ] Hshown. unfold holder in HJ. rewrite Hshown in HJ.
  unfold stopCamera.
  destruct (selfieStream (selfie_of (vid w) w)) as [s|]; simpl.
  - intros x. rewrite elem_of_difference, elem_of_singleton.
    intros [Hx Hne]. specialize (HJ x Hx). congruence.
  - exact HI.
Qed.

Lemma single_owner_setupFileInput (w : world) :
  single_owner w -> shown w = UploadDocument ->
  single_owner (setupFileInput (vid w) w).
Proof.
  intros Hw Hshown. apply quiet_single_owner. unfold setupFileInput.
  eapply quiet_same_streams; [apply same_streams_set_sourceArea|].
  apply quiet_stopLocalCamera; assumption.
Qed.

Lemma single_owner_change_source (value : string) (w : world) :
  single_owner w -> shown w = UploadDocument -> single_owner (change_source value w).
Proof.
  intros Hw Hshown. unfold change_source. cbv zeta.
  pose proof (same_streams_set_chosenFile (vid w) None w) as Hs.
  pose proof (single_owner_same_streams _ _ Hs Hw) as Hw1.
  destruct (String.eqb value "file").
  - change (vid w) with (vid (set_chosenFile (vid w) None w)) at 1.
    apply single_owner_setupFileInput; [exact Hw1 | exact Hshown].
  - eapply single_owner_same_streams; [apply same_streams_setupCameraCapture | exact Hw1].
Qed.

Lemma single_owner_click_doc_close (w : world) :
  single_owner w -> shown w = UploadDocument -> single_owner (click_doc_close w).
Proof.
  intros Hw Hshown. apply quiet_single_owner. unfold click_doc_close, setupFileInput.
  cbv zeta. eapply quiet_same_streams; [apply same_streams_set_sourceArea|].
  apply quiet_stopLocalCamera_again, quiet_stopLocalCamera; assumption.
Qed.

Lemma quiet_tracked (w : world) :
  quiet w -> forall s, s ∈ live w -> activeStream (st w) = Some s.
Proof. intros [Hl _] s. rewrite Hl. intros Hs. destruct (not_elem_of_empty s Hs). Qed.

Lemma single_owner_click_cancel_upload (w : world) :
  single_owner w -> shown w = UploadDocument -> single_owner (click_cancel_upload w).
Proof.
  intros Hw Hshown. unfold click_cancel_upload.
  apply (single_owner_render _ showHome); [simpl; auto|].
  apply quiet_tracked, quiet_stopLocalCamera; assumption.
Qed.

Lemma single_owner_click_cancel_selfie (w : world) :
  single_owner w -> shown w = SelfieUpload -> single_owner (click_cancel_selfie w).
Proof.
  intros Hw Hshown. unfold click_cancel_selfie.
  apply (single_owner_render _ renderUploadDocument); [simpl; auto 10|].
  apply tracked_stopCamera; assumption.
Qed.

Lemma single_owner_click_upload_doc (w : world) :
  single_owner w -> single_owner (click_upload_doc w).
Proof.
  intros Hw. unfold click_upload_doc. cbv zeta.
  destruct (chosenFile _).
  2:{ eapply single_owner_same_streams; [apply same_streams_showMessage | exact Hw]. }
  destruct (negb _).
  { eapply single_owner_same_streams; [apply same_streams_showMessage | exact Hw]. }
  destruct Hw as [HI HJ]. split; simpl; [exact HI | exact HI].
Qed.

Lemma single_owner_settle_validate (v : nat) (f : fetched) (w : world) :
  single_owner w -> single_owner (settle_validate v f w).
Proof.
  intros Hw. unfold settle_validate. destruct (ocr_outcome f) as [data verdict].
  assert (H1 : single_owner (match data with
                             | Some d => with_st (set_lastOcrResponse d) w
                             | None => w
                             end)).
  { destruct data; [|exact Hw].
    eapply single_owner_same_streams; [|exact Hw].
    apply same_streams_with_st. reflexivity. }
  revert H1. generalize (match data with
                         | Some d => with_st (set_lastOcrResponse d) w
                         | None => w
                         end). clear w Hw. intros w Hw.
  assert (Hshow : forall p, single_owner (show_ocr v p w)).
  { intros p. unfold show_ocr. destruct (Nat.eqb v (vid w)); [|exact Hw].
    destruct Hw as [HI HJ]. split; simpl; [exact HI | exact HI]. }
  destruct verdict; [apply Hshow|].
  eapply single_owner_same_streams; [apply same_streams_spawn | apply Hshow].
Qed.

Lemma single_owner_settle_selfie (f : fetched) (w : world) :
  single_owner w -> shown w = SelfieUpload -> single_owner (settle_selfie (vid w) f w).
Proof.
  intros Hw Hshown. unfold settle_selfie. destruct (selfie_try f).
  - apply (single_owner_render _ renderStatusPage); [simpl; auto 10|].
    apply tracked_stopCamera; assumption.
  - eapply single_owner_same_streams; [apply same_streams_showMessage | exact Hw].
Qed.

Lemma single_owner_settle_select_document v d f w :
  single_owner w -> single_owner (settle_select_document v d f w).
Proof.
  intros Hw. unfold settle_select_document. destruct (bind _ _).
  - apply (single_owner_render _ renderEnterDocNumber); [simpl; auto 10|]. apply Hw.
  - eapply single_owner_same_streams; [apply same_streams_showMessage | exact Hw].
Qed.

Lemma single_owner_settle_doc_number v d f w :
  single_owner w -> single_owner (settle_doc_number v d f w).
Proof.
  intros Hw. unfold settle_doc_number. destruct (bind _ _).
  - apply (single_owner_render _ renderUploadDocument); [simpl; auto 10|]. apply Hw.
  - eapply single_owner_same_streams; [apply same_streams_showMessage | exact Hw].
Qed.

End Handlers.

Section CalmRuns.

Local Ltac render_case :=
  match goal with
  | Hw : single_owner ?w |- single_owner (?r ?w) =>
      apply (single_owner_render w r); [simpl; auto 10 | apply Hw]
  end.

Local Ltac streams_case lem :=
  match goal with
  | Hw : single_owner ?w |- _ =>
      eapply single_owner_same_streams; [apply lem | exact Hw]
  end.

Lemma single_owner_click (b : button) (w : world) :
  single_owner w -> single_owner (click b w).
Proof.
  intros Hw. unfold click.
  destruct b; try exact Hw.
  - (* NavHome *)
    apply (single_owner_render _ showHome); [simpl; auto 10|].
    apply (single_owner_render _ showHome); [simpl; auto 10 | apply Hw].
  - (* NavAdmin *)
    apply (single_owner_render _ renderAdminList); [simpl; auto 10|].
    apply (single_owner_render _ renderAdminList); [simpl; auto 10 | apply Hw].
  - apply (single_owner_iter (S listeners) w renderCreateSession); [simpl; auto 10 | exact Hw].
  - apply (single_owner_iter (S listeners) w renderAdminList); [simpl; auto 10 | exact Hw].
  - destruct (shown w); try exact Hw. render_case.
  - destruct (shown w); try exact Hw. render_case.
  - destruct (shown w); try exact Hw. streams_case same_streams_click_doc.
  - destruct (shown w); try exact Hw. render_case.
  - destruct (shown w); try exact Hw. apply single_owner_click_upload_doc, Hw.
  - destruct (shown w) eqn:Hshown; try exact Hw.
    apply single_owner_click_cancel_upload; assumption.
  - destruct (shown w); try exact Hw. destruct (camera_wired _ _); [|exact Hw].
    streams_case same_streams_spawn.
  - destruct (shown w) eqn:Hshown; try exact Hw. destruct (camera_wired _ _); [|exact Hw].
    apply single_owner_click_doc_close; assumption.
  - destruct (shown w) as [| | | | |[]| | |]; try exact Hw. render_case.
  - destruct (shown w) as [| | | | |[]| | |]; try exact Hw. render_case.
  - destruct (shown w); try exact Hw. streams_case same_streams_click_capture_selfie.
  - destruct (shown w); try exact Hw. streams_case same_streams_click_upload_selfie.
  - destruct (shown w) eqn:Hshown; try exact Hw.
    apply single_owner_click_cancel_selfie; assumption.
  - destruct (shown w); try exact Hw. streams_case same_streams_loadStatus.
  - destruct (shown w); try exact Hw. render_case.
  - destruct (shown w); try exact Hw. streams_case same_streams_click_apply.
  - destruct (shown w); exact Hw.
Qed.

(** A stream granted to the view shown, while none is held. *)
Lemma single_owner_granted_doc (p : nat) (w : world) :
  single_owner w -> shown w = UploadDocument -> activeStream (st w) = None ->
  forall w', resume (TGetUserMediaDoc (vid w) p) Granted w = Some w' -> single_owner w'.
Proof.
  intros [HI HJ] Hshown Hnone w' [= <-].
  assert (Hempty : live w = ∅).
  { apply no_stream. intros x Hx. specialize (HI x Hx). congruence. }
  unfold single_owner, holder. simpl. rewrite Hshown, Hempty.
  unfold upload_of. simpl. rewrite lookup_insert_eq. simpl.
  split; intros s Hs; f_equal;
    apply elem_of_union in Hs as [Hs|Hs];
    [destruct (not_elem_of_empty s Hs) | apply elem_of_singleton in Hs; congruence
    |destruct (not_elem_of_empty s Hs) | apply elem_of_singleton in Hs; congruence].
Qed.

Lemma single_owner_granted_selfie (w : world) :
  single_owner w -> shown w = SelfieUpload -> activeStream (st w) = None ->
  forall w', resume (TGetUserMediaSelfie (vid w)) Granted w = Some w' -> single_owner w'.
Proof.
  intros [HI HJ] Hshown Hnone w' [= <-].
  assert (Hempty : live w = ∅).
  { apply no_stream. intros x Hx. specialize (HI x Hx). congruence. }
  unfold single_owner, holder. simpl. rewrite Hshown, Hempty.
  unfold selfie_of. simpl. rewrite lookup_insert_eq. simpl.
  split; intros s Hs; f_equal;
    apply elem_of_union in Hs as [Hs|Hs];
    [destruct (not_elem_of_empty s Hs) | apply elem_of_singleton in Hs; congruence
    |destruct (not_elem_of_empty s Hs) | apply elem_of_singleton in Hs; congruence].
Qed.

End CalmRuns.

Section CalmSteps.

Lemma single_owner_settle (i : nat) (o : outcome) (w : world) :
  single_owner w -> calm (Settle i o) w -> single_owner (settle i o w).
Proof.
  intros Hw Hcalm. unfold settle.
  destruct (tasks w !! i) as [t|] eqn:Ht; [|exact Hw].
  assert (Hs0 : same_streams (with_tasks (delete i (tasks w)) w) w)
    by apply same_streams_with_tasks.
  pose proof (single_owner_same_streams _ _ Hs0 Hw) as Hw0.
  set (w0 := with_tasks (delete i (tasks w)) w) in *.
  destruct (resume t o w0) as [w'|] eqn:Hr; [|exact Hw]. simpl.
  destruct t, o; simpl in Hr; try discriminate;
    try (injection Hr as <-).
  - eapply single_owner_same_streams;
      [apply same_streams_settle_create_session | exact Hw0].
  - apply single_owner_settle_select_document, Hw0.
  - apply single_owner_settle_doc_number, Hw0.
  - apply single_owner_settle_validate, Hw0.
  - simpl in Hcalm. rewrite Ht in Hcalm. destruct Hcalm as [-> Hshown].
    apply (single_owner_settle_selfie f w0); assumption.
  - eapply single_owner_same_streams; [apply same_streams_settle_status | exact Hw0].
  - simpl in Hcalm. rewrite Ht in Hcalm. destruct Hcalm as (-> & Hshown & Hnone).
    apply (single_owner_granted_doc panel w0 Hw0 Hshown Hnone). reflexivity.
  - eapply single_owner_same_streams; [apply same_streams_camera_error | exact Hw0].
  - eapply single_owner_same_streams; [apply same_streams_wire | exact Hw0].
  - eapply single_owner_same_streams; [apply same_streams_camera_error | exact Hw0].
  - simpl in Hcalm. rewrite Ht in Hcalm. destruct Hcalm as (-> & Hshown & Hnone).
    apply (single_owner_granted_selfie w0 Hw0 Hshown Hnone). reflexivity.
  - eapply single_owner_same_streams; [apply same_streams_camera_error | exact Hw0].
  - exact Hw0.
  - eapply single_owner_same_streams; [apply same_streams_camera_error | exact Hw0].
  - eapply single_owner_same_streams; [apply same_streams_set_chosenFile | exact Hw0].
  - eapply single_owner_same_streams; [|exact Hw0].
    apply same_streams_set_selfie. reflexivity.
  - destruct k; simpl.
    + apply (single_owner_render _ renderSelectDocument); [simpl; auto 10 | apply Hw0].
    + apply (single_owner_render _ renderUploadDocument); [simpl; auto 10 | apply Hw0].
Qed.

Lemma single_owner_step (e : event) (w : world) :
  single_owner w -> calm e w -> single_owner (step e w).
Proof.
  intros Hw Hcalm. unfold step. destruct e.
  - apply single_owner_click, Hw.
  - destruct (shown w); try exact Hw.
    eapply single_owner_same_streams;
      [apply same_streams_submit_create_session | exact Hw].
  - destruct (shown w); try exact Hw.
    eapply single_owner_same_streams; [apply same_streams_submit_doc_number | exact Hw].
  - destruct (shown w) eqn:Hshown; try exact Hw.
    apply single_owner_change_source; assumption.
  - destruct (shown w); try exact Hw. destruct (sourceArea _); [|exact Hw].
    unfold change_file. destruct f; [|exact Hw].
    eapply single_owner_same_streams; [apply same_streams_set_chosenFile | exact Hw].
  - assert (Hs : single_owner (settle i o w)) by (apply single_owner_settle; assumption).
    destruct (shown w); exact Hs.
  - assert (Hs : single_owner (stopActiveStream w))
      by (apply quiet_single_owner, quiet_stopActiveStream, Hw).
    destruct (shown w); exact Hs.
  - assert (Hs : single_owner (stopActiveStream w))
      by (apply quiet_single_owner, quiet_stopActiveStream, Hw).
    destruct (shown w); exact Hs.
Qed.

Lemma single_owner_boot (stored : option string) : single_owner (boot stored).
Proof.
  apply quiet_single_owner. unfold boot. cbv zeta.
  apply (quiet_render _ showHome); [simpl; auto|]. simpl. intros s Hs.
  destruct (not_elem_of_empty s Hs).
Qed.

Lemma single_owner_one_stream (w : world) : single_owner w -> (size (live w) <= 1)%nat.
Proof.
  intros [HI _]. destruct (activeStream (st w)) as [a|] eqn:Ha.
  - assert (Hsub : live w ⊆ {[a]}).
    { intros x Hx. specialize (HI x Hx). apply elem_of_singleton. congruence. }
    apply subseteq_size in Hsub. rewrite size_singleton in Hsub. exact Hsub.
  - assert (Hempty : live w = ∅).
    { apply no_stream. intros x Hx. specialize (HI x Hx). discriminate. }
    rewrite Hempty, size_empty. lia.
Qed.

End CalmSteps.

(** X4. Without interleaving, at most one stream runs: from the loaded page,
    along every run in which each [getUserMedia] call resolves in the view
    that made it while [state] holds no stream, and each selfie request
    settles while its view is shown, every running stream is the one that
    [state.activeStream] and the view shown hold. *)
Theorem one_stream_in_calm_runs (stored : option string) (es : list event) :
  calm_run es (boot stored) ->
  let w := steps es (boot stored) in
  single_owner w /\ (size (live w) <= 1)%nat /\
  forall s, s ∈ live w -> activeStream (st w) = Some s.
Proof.
  intros Hrun. cbv zeta.
  assert (H : single_owner (steps es (boot stored))).
  { pose proof (single_owner_boot stored) as Hw. revert Hrun Hw.
    generalize (boot stored). induction es as [|e es IH]; intros w Hrun Hw; simpl.
    - exact Hw.
    - destruct Hrun as [Hcalm Hrun]. apply IH; [exact Hrun|].
      apply single_owner_step; assumption. }
  split; [exact H|]. split; [apply single_owner_one_stream, H | apply H].
Qed.

(** The capture flow is such a run: the camera of the upload view is the
    only stream along it. *)
Lemma capture_flow_is_calm :
  calm_run (to_upload_view ++ capture_and_upload) (boot None) /\
  size (live (steps (to_upload_view ++ capture_and_upload) (boot None))) = 1%nat.
Proof.
  split; [|reflexivity].
  vm_compute. repeat split; reflexivity.
Qed.

Lemma one_stream_in_capture_flow :
  (size (live (steps (to_upload_view ++ capture_and_upload) (boot None))) <= 1)%nat.
Proof.
  apply (one_stream_in_calm_runs None (to_upload_view ++ capture_and_upload)).
  apply capture_flow_is_calm.
Defined.

(** C2 fails on a reachable world: after the source selector of the upload
    view has gone to the camera, to the file input and to the camera again
    while [getUserMedia] was pending, both calls resolve and two streams
    run; [state.activeStream] holds the second, and nothing refers to the
    first any more. *)
Theorem two_streams_open :
  let w := steps (to_upload_view ++ switch_while_pending) (boot None) in
  reachable w /\ shown w = UploadDocument /\
  live w = {[ 0%nat; 1%nat ]} /\ size (live w) = 2%nat /\
  activeStream (st w) = Some 1%nat /\
  localStream (upload_of (vid w) w) = Some 1%nat /\
  live (stopActiveStream w) = {[ 0%nat ]}.
Proof.
  cbv zeta. split; [apply reachable_steps, reachable_boot|].
  vm_compute. repeat split; reflexivity.
Qed.

(** C7 fails on the transition into the OCR progress node: with the camera
    of the upload view running, the upload button replaces the view and
    the stream keeps running, still held by [state.activeStream]. *)
Theorem ocr_progress_keeps_stream :
  let w := steps (to_upload_view ++ removelast capture_and_upload) (boot None) in
  let w' := step (Click UploadDocBtn) w in
  reachable w' /\
  shown w = UploadDocument /\ activeStream (st w) = Some 0%nat /\ live w = {[ 0%nat ]} /\
  shown w' = OcrProgress OcrWaiting /\ vid w' <> vid w /\
  activeStream (st w') = Some 0%nat /\ live w' = {[ 0%nat ]}.
Proof.
  cbv zeta. split; [apply reachable_step, reachable_steps, reachable_boot|].
  vm_compute. repeat split; try reflexivity. discriminate.
Qed.

(** ** Admin filters *)

Section Calendar.

Lemma DayFromYear_succ (y : Z) : DayFromYear (y + 1) = DayFromYear y + DaysInYear y.
Proof.
  unfold DayFromYear, DaysInYear.
  destruct (Z.eqb_spec (y mod 4) 0); simpl;
  [destruct (Z.eqb_spec (y mod 100) 0); simpl;
   [destruct (Z.eqb_spec (y mod 400) 0); simpl|]|]; Z.div_mod_to_equations; lia.
Qed.

Lemma DaysInYear_range (y : Z) : DaysInYear y = 365 \/ DaysInYear y = 366.
Proof.
  unfold DaysInYear.
  destruct (_ =? _); simpl; [|auto]. destruct (_ =? _); simpl; [|auto].
  destruct (_ =? _); simpl; auto.
Qed.

Lemma DayFromYear_lt (y1 y2 : Z) : y1 < y2 -> DayFromYear y1 < DayFromYear y2.
Proof. unfold DayFromYear. Z.div_mod_to_equations. lia. Qed.

Lemma year_search_spec (fuel : nat) (c d y : Z) :
  c <= y -> y - c <= Z.of_nat fuel ->
  DayFromYear y <= d < DayFromYear (y + 1) ->
  year_search fuel c d = y.
Proof.
  revert c. induction fuel as [|fuel IH]; intros c Hc Hf Hd; simpl.
  - lia.
  - destruct (Z.leb_spec (DayFromYear (c + 1)) d) as [Hle|Hgt].
    + apply IH; [|lia|assumption].
      destruct (Z.eq_dec c y) as [->|]; lia.
    + destruct (Z.eq_dec c y) as [->|Hne]; [reflexivity|].
      pose proof (DayFromYear_lt (c + 1) y). 
      destruct (Z.eq_dec (c + 1) y) as [<-|]; lia.
Qed.

Lemma YearFromDay_spec (d y : Z) :
  DayFromYear y <= d < DayFromYear (y + 1) -> YearFromDay d = y.
Proof.
  intros Hd. unfold YearFromDay. apply year_search_spec; [| |assumption];
    unfold DayFromYear in Hd; Z.div_mod_to_equations; lia.
Qed.

End Calendar.

Ltac eval_month_start :=
  repeat match goal with
         | |- context [month_start ?a ?b] =>
             let v := eval vm_compute in (month_start a b) in
             change (month_start a b) with v
         end.

Section CalendarDates.

Variables (y m d : Z).
Hypothesis Hdate : calendar_date y m d.

Let leap : Z := if DaysInYear y =? 366 then 1 else 0.

Lemma MakeDay_calendar :
  MakeDay y (m - 1) d = DayFromYear y + month_start (m - 1) leap + d - 1.
Proof.
  destruct Hdate as [Hm _]. unfold MakeDay.
  replace ((m - 1) / 12) with 0 by (Z.div_mod_to_equations; lia).
  replace ((m - 1) mod 12) with (m - 1) by (Z.div_mod_to_equations; lia).
  rewrite Z.add_0_r. reflexivity.
Qed.

Lemma day_in_year_range :
  0 <= month_start (m - 1) leap + d - 1 < DaysInYear y.
Proof.
  destruct Hdate as [Hm Hd]. unfold DaysInMonth in Hd. subst leap.
  destruct (DaysInYear_range y) as [Hy|Hy]; rewrite Hy in *; simpl in *;
    assert (Hcases : m = 1 \/ m = 2 \/ m = 3 \/ m = 4 \/ m = 5 \/ m = 6 \/ m = 7 \/
                     m = 8 \/ m = 9 \/ m = 10 \/ m = 11 \/ m = 12) by lia;
    destruct Hcases as [->|[->|[->|[->|[->|[->|[->|[->|[->|[->|[->| ->]]]]]]]]]]];
    simpl in *; eval_month_start; lia.
Qed.

Lemma calendar_roundtrip (time : Z) :
  0 <= time < msPerDay ->
  let t := MakeDate (MakeDay y (m - 1) d) time in
  YearFromTime t = y /\ MonthFromTime t = m - 1 /\ DateFromTime t = d /\
  TimeWithinDay t = time.
Proof.
  intros Htime t.
  pose proof day_in_year_range as Hk.
  assert (Hday : Day t = DayFromYear y + month_start (m - 1) leap + d - 1).
  { unfold t, Day, MakeDate. rewrite MakeDay_calendar. unfold msPerDay in *.
    Z.div_mod_to_equations. lia. }
  assert (Hyear : YearFromTime t = y).
  { unfold YearFromTime. rewrite Hday. apply YearFromDay_spec.
    rewrite DayFromYear_succ. lia. }
  assert (Hleap : InLeapYear t = leap).
  { unfold InLeapYear. rewrite Hyear. reflexivity. }
  assert (Hwithin : DayWithinYear t = month_start (m - 1) leap + d - 1).
  { unfold DayWithinYear. rewrite Hyear, Hday. lia. }
  assert (Hmonth : MonthFromTime t = m - 1).
  { unfold MonthFromTime. rewrite Hwithin, Hleap. clear Hday Hyear Hleap Hwithin Hk.
    destruct Hdate as [Hm Hd]. unfold DaysInMonth in Hd. subst leap.
    destruct (DaysInYear_range y) as [Hy|Hy]; rewrite Hy in *; simpl in *;
      assert (Hcases : m = 1 \/ m = 2 \/ m = 3 \/ m = 4 \/ m = 5 \/ m = 6 \/ m = 7 \/
                       m = 8 \/ m = 9 \/ m = 10 \/ m = 11 \/ m = 12) by lia;
      destruct Hcases as [->|[->|[->|[->|[->|[->|[->|[->|[->|[->|[->| ->]]]]]]]]]]];
      simpl in *; eval_month_start;
      repeat match goal with
             | |- context [?a <? ?b] => destruct (Z.ltb_spec a b); try lia
             end; reflexivity. }
  split; [exact Hyear|]. split; [exact Hmonth|]. split.
  - unfold DateFromTime. rewrite Hwithin, Hmonth, Hleap. lia.
  - unfold t, TimeWithinDay, MakeDate, msPerDay in *. Z.div_mod_to_equations. lia.
Qed.

End CalendarDates.

Section DateText.

Lemma digit_char_facts (n : Z) :
  is_digit (digit_char n) = true /\ is_space (digit_char n) = false /\
  Ascii.eqb (digit_char n) "-" = false /\ digit_value (digit_char n) = n mod 10.
Proof.
  unfold digit_char.
  assert (Hr : 0 <= n mod 10 < 10) by (apply Z.mod_pos_bound; lia).
  assert (Hcases : n mod 10 = 0 \/ n mod 10 = 1 \/ n mod 10 = 2 \/ n mod 10 = 3 \/
                   n mod 10 = 4 \/ n mod 10 = 5 \/ n mod 10 = 6 \/ n mod 10 = 7 \/
                   n mod 10 = 8 \/ n mod 10 = 9) by lia.
  destruct Hcases as [->|[->|[->|[->|[->|[->|[->|[->|[->| ->]]]]]]]]];
    repeat split; reflexivity.
Qed.

Ltac digit_facts :=
  repeat match goal with
         | |- context [is_digit (digit_char ?n)] =>
             rewrite (proj1 (digit_char_facts n))
         | |- context [is_space (digit_char ?n)] =>
             rewrite (proj1 (proj2 (digit_char_facts n)))
         | |- context [Ascii.eqb (digit_char ?n) "-"] =>
             rewrite (proj1 (proj2 (proj2 (digit_char_facts n))))
         | |- context [digit_value (digit_char ?n)] =>
             rewrite (proj2 (proj2 (proj2 (digit_char_facts n))))
         end.

Lemma Number_pad2 (n : Z) : 0 <= n <= 99 -> Number (pad 2 n) = Some n.
Proof.
  intros Hn. unfold Number, trim. cbv [pad String.append].
  cbn [trimStart]. digit_facts. cbn [trimEnd]. digit_facts.
  cbn [digits_prefix]. digit_facts.
  simpl. f_equal. Z.div_mod_to_equations. lia.
Qed.

Lemma Number_pad4 (n : Z) : 0 <= n <= 9999 -> Number (pad 4 n) = Some n.
Proof.
  intros Hn. unfold Number, trim. cbv [pad String.append].
  cbn [trimStart]. digit_facts. cbn [trimEnd]. digit_facts.
  cbn [digits_prefix]. digit_facts.
  simpl. f_equal. Z.div_mod_to_equations. lia.
Qed.

Lemma split_dash_date_text (y m d : Z) :
  split_dash (date_text y m d) = [pad 4 y; pad 2 m; pad 2 d].
Proof.
  unfold date_text. cbv [pad String.append].
  cbn [split_dash]. digit_facts. reflexivity.
Qed.

End DateText.

Section FilterRange.

Lemma clock_fields (day time : Z) :
  0 <= time < msPerDay ->
  let t := MakeDate day time in
  HourFromTime t = time / 3600000 /\ MinFromTime t = (time / 60000) mod 60 /\
  SecFromTime t = (time / 1000) mod 60 /\ msFromTime t = time mod 1000.
Proof.
  intros Htime. unfold MakeDate, HourFromTime, MinFromTime, SecFromTime, msFromTime,
    msPerDay in *. cbv zeta.
  repeat split; Z.div_mod_to_equations; lia.
Qed.

(** The text [toISOString] gives for a time of day on a calendar day of a
    year from 0 to 9999. *)
Lemma toISOString_calendar (y m d time : Z) :
  0 <= y <= 9999 -> calendar_date y m d -> 0 <= time < msPerDay ->
  toISOString (Some (MakeDate (MakeDay y (m - 1) d) time)) =
  Ok (date_text y m d +:+ "T" +:+ pad 2 (time / 3600000) +:+ ":"
      +:+ pad 2 ((time / 60000) mod 60) +:+ ":" +:+ pad 2 ((time / 1000) mod 60)
      +:+ "." +:+ pad 3 (time mod 1000) +:+ "Z").
Proof.
  intros Hy Hdate Htime. unfold toISOString.
  destruct (calendar_roundtrip y m d Hdate time Htime) as (-> & -> & -> & _).
  destruct (clock_fields (MakeDay y (m - 1) d) time Htime) as (-> & -> & -> & ->).
  unfold year_text.
  replace ((0 <=? y) && (y <=? 9999)) with true by (symmetry; apply andb_true_iff; lia).
  replace (m - 1 + 1) with m by lia.
  reflexivity.
Qed.

Lemma Date_UTC_calendar (y m d hours minutes seconds : Z) :
  100 <= y <= 9999 -> calendar_date y m d ->
  0 <= MakeTime hours minutes seconds 0 < msPerDay ->
  Date_UTC (Some y) (Some (m - 1)) (Some d) hours minutes seconds =
  Some (MakeDate (MakeDay y (m - 1) d) (MakeTime hours minutes seconds 0)).
Proof.
  intros Hy Hdate Htime. unfold Date_UTC.
  replace ((0 <=? y) && (y <=? 99)) with false by (symmetry; apply andb_false_iff; lia).
  unfold TimeClip.
  destruct (Z.gtb_spec (Z.abs (MakeDate (MakeDay y (m - 1) d)
                                        (MakeTime hours minutes seconds 0)))
                       8640000000000000) as [Hbig|]; [|reflexivity].
  exfalso. pose proof (day_in_year_range y m d Hdate) as Hk.
  rewrite (MakeDay_calendar y m d Hdate) in Hbig.
  revert Hbig Hk.
  generalize (month_start (m - 1) (if DaysInYear y =? 366 then 1 else 0)).
  intros k Hbig Hk.
  destruct (DaysInYear_range y) as [Hd|Hd]; rewrite Hd in Hk;
    unfold MakeDate, DayFromYear, msPerDay in *; Z.div_mod_to_equations; lia.
Qed.

(** X6. For a date field holding a calendar day of a year from 100 to
    9999, the filters are bounded by 00:00:00.000 and 23:59:59.000 UTC of
    that day. *)
Lemma filter_date_own_day (fStatus fDoc : string) (y m d : Z) :
  100 <= y <= 9999 -> calendar_date y m d ->
  getCurrentFilters fStatus fDoc (date_text y m d) =
  Ok (base_filters fStatus fDoc ++
      [("created_from", date_text y m d +:+ "T00:00:00.000Z");
       ("created_to", date_text y m d +:+ "T23:59:59.000Z")]).
Proof.
  intros Hy Hdate. unfold getCurrentFilters.
  assert (Hne : String.eqb (date_text y m d) "" = false) by reflexivity.
  rewrite Hne, split_dash_date_text.
  assert (Hmd : 1 <= m <= 12 /\ 1 <= d <= 31).
  { destruct Hdate as [Hm Hd]. split; [assumption|]. unfold DaysInMonth in Hd.
    destruct (m =? 2); [destruct (_ =? _)|destruct (_ || _)]; lia. }
  rewrite Number_pad4, !Number_pad2 by lia. cbn [option_map].
  rewrite !Date_UTC_calendar by (try assumption; vm_compute; split; congruence).
  rewrite !toISOString_calendar by (try assumption; try lia; vm_compute; split; congruence).
  cbn [bind]. f_equal. unfold base_filters.
  destruct (String.eqb fStatus ""), (String.eqb fDoc ""); reflexivity.
Qed.

(** X6 on 2024-03-15 with the status APPROVED. *)
Lemma filter_date_own_day_witness :
  getCurrentFilters "APPROVED" "" "2024-03-15" =
  Ok [("status", "APPROVED");
      ("created_from", "2024-03-15T00:00:00.000Z");
      ("created_to", "2024-03-15T23:59:59.000Z")].
Proof.
  apply (filter_date_own_day "APPROVED" "" 2024 3 15).
  - lia.
  - unfold calendar_date. vm_compute. repeat split; discriminate.
Defined.

End FilterRange.

(** C8 fails for the years 1 to 99: the date 0050-03-15 is sent as the
    range of 1950-03-15, the year going through the two-digit rule of
    [Date.UTC], and this is what the Apply button puts in the request.  The
    date 2024-03-15 is sent as its own day, and no bound is sent when the
    date field is empty. *)
Theorem filter_date_two_digit_year :
  getCurrentFilters "" "" "0050-03-15"
    = Ok [("created_from", "1950-03-15T00:00:00.000Z");
          ("created_to", "1950-03-15T23:59:59.000Z")] /\
  (forall w, requests (click_apply "" "" "0050-03-15" w)
     = requests w ++ [Get (Lit "/api/v1/admin/kyc/sessions")
                          [("created_from", "1950-03-15T00:00:00.000Z");
                           ("created_to", "1950-03-15T23:59:59.000Z")]]) /\
  getCurrentFilters "" "" "2024-03-15"
    = Ok [("created_from", "2024-03-15T00:00:00.000Z");
          ("created_to", "2024-03-15T23:59:59.000Z")] /\
  (forall fStatus fDoc, exists f,
     getCurrentFilters fStatus fDoc "" = Ok f /\
     Forall (fun kv => fst kv <> "created_from" /\ fst kv <> "created_to") f /\
     Forall (fun kv => fst kv <> "created_from" /\ fst kv <> "created_to") (query f)).
Proof.
  split; [reflexivity|]. split; [intros w; reflexivity|]. split; [reflexivity|].
  intros fStatus fDoc. unfold getCurrentFilters. simpl.
  eexists. split; [reflexivity|].
  unfold query.
  destruct (String.eqb fStatus ""), (String.eqb fDoc ""); simpl;
    rewrite ?String.eqb_refl; simpl;
    repeat match goal with
           | |- context [String.eqb ?a ""] => destruct (String.eqb a ""); simpl
           end;
    split; repeat constructor; simpl; discriminate.
Qed.


(** * Further properties *)

(** ** What each step sends and writes *)

Section Benign.

Lemma grows_refl (w : world) : grows w w.
Proof. exists []. split; [symmetry; apply app_nil_r | constructor]. Qed.

Lemma grows_trans (w1 w2 w3 : world) : grows w2 w1 -> grows w3 w2 -> grows w3 w1.
Proof.
  intros (l1 & H1 & F1) (l2 & H2 & F2). exists (l1 ++ l2).
  split; [rewrite H2, H1, app_assoc; reflexivity | apply Forall_app; auto].
Qed.

Lemma same_data_refl (w : world) : same_data w w.
Proof. split; reflexivity. Qed.

Lemma same_data_trans (w1 w2 w3 : world) :
  same_data w2 w1 -> same_data w3 w2 -> same_data w3 w1.
Proof. intros [A1 A2] [B1 B2]. split; congruence. Qed.

Lemma benign_refl (w : world) : benign w w.
Proof. split; [apply same_data_refl | apply grows_refl]. Qed.

Lemma benign_trans (w1 w2 w3 : world) : benign w2 w1 -> benign w3 w2 -> benign w3 w1.
Proof.
  intros [A1 A2] [B1 B2].
  split; [eapply same_data_trans | eapply grows_trans]; eassumption.
Qed.

(** A step that touches neither the data, the storage nor the requests. *)
Lemma benign_silent (w' w : world) :
  localStorage w' = localStorage w -> data_fields w' = data_fields w ->
  requests w' = requests w -> benign w' w.
Proof.
  intros H1 H2 H3. split; [split; assumption|].
  exists []. split; [rewrite H3; symmetry; apply app_nil_r | constructor].
Qed.

Lemma benign_send (r : request) (w : world) : known_request r -> benign (send r w) w.
Proof.
  intros Hr. split; [split; reflexivity|].
  exists [r]. split; [reflexivity | constructor; [exact Hr | constructor]].
Qed.

Lemma benign_showMessage v t w : benign (showMessage v t w) w.
Proof. unfold showMessage. destruct (Nat.eqb _ _); apply benign_silent; reflexivity. Qed.

Lemma benign_spawn t w : benign (spawn t w) w.
Proof. apply benign_silent; reflexivity. Qed.

Lemma benign_with_tasks l w : benign (with_tasks l w) w.
Proof. apply benign_silent; reflexivity. Qed.

Lemma benign_setMain p w : benign (setMain p w) w.
Proof. apply benign_silent; reflexivity. Qed.

Lemma benign_set_upload v c w : benign (set_upload v c w) w.
Proof. apply benign_silent; reflexivity. Qed.

Lemma benign_set_selfie v c w : benign (set_selfie v c w) w.
Proof. apply benign_silent; reflexivity. Qed.

Lemma benign_stop_tracks s w : benign (stop_tracks s w) w.
Proof. apply benign_silent; reflexivity. Qed.

Lemma benign_release w : benign (with_st (set_activeStream None) w) w.
Proof. apply benign_silent; reflexivity. Qed.

Lemma benign_hold s w : benign (with_st (set_activeStream (Some s)) w) w.
Proof. apply benign_silent; reflexivity. Qed.

Lemma benign_stopActiveStream w : benign (stopActiveStream w) w.
Proof.
  unfold stopActiveStream. destruct (activeStream (st w));
    apply benign_silent; reflexivity.
Qed.

Lemma benign_stopLocalCamera v w : benign (stopLocalCamera v w) w.
Proof.
  unfold stopLocalCamera. destruct (localStream _); apply benign_silent; reflexivity.
Qed.

Lemma benign_stopCamera v w : benign (stopCamera v w) w.
Proof.
  unfold stopCamera. destruct (selfieStream _); apply benign_silent; reflexivity.
Qed.

End Benign.

Ltac benign :=
  repeat first
    [ simple apply benign_refl
    | simple eapply benign_trans;
      [| first [ simple apply benign_showMessage
               | simple apply benign_spawn
               | simple apply benign_with_tasks
               | simple apply benign_setMain
               | simple apply benign_set_upload
               | simple apply benign_set_selfie
               | simple apply benign_stop_tracks
               | simple apply benign_release
               | simple apply benign_hold
               | simple apply benign_stopActiveStream
               | simple apply benign_stopLocalCamera
               | simple apply benign_stopCamera ] ] ].

Section BenignHandlers.

Lemma session_request_path (w : world) (suffix : string) (r : request) :
  truthy (sessionId (st w)) = true -> path_of r = session_path w suffix ->
  known_request r.
Proof.
  intros Ht Hp. right. right. exists (sessionId (st w)), suffix. split; assumption.
Qed.

Lemma benign_loadStatus v w : benign (loadStatus v w) w.
Proof.
  unfold loadStatus. destruct (truthy (sessionId (st w))) eqn:Ht; simpl; [|benign].
  eapply benign_trans; [|apply benign_spawn].
  apply benign_send. eapply session_request_path; [exact Ht | reflexivity].
Qed.

Lemma benign_loadSessions f w : benign (loadSessions f w) w.
Proof. apply benign_send. right. left. eexists. reflexivity. Qed.

Lemma benign_renderUploadDocument w : benign (renderUploadDocument w) w.
Proof. rewrite renderUploadDocument_eq. cbv zeta. benign. Qed.

Lemma benign_render (w : world) (render : world -> world) :
  In render [showHome; renderCreateSession; renderSelectDocument;
             renderEnterDocNumber; renderUploadDocument; renderSelfieUpload;
             renderStatusPage; renderAdminList] ->
  benign (render w) w.
Proof.
  simpl. intros [<-|[<-|[<-|[<-|[<-|[<-|[<-|[<-|[]]]]]]]]].
  - unfold showHome. benign.
  - unfold renderCreateSession. benign.
  - unfold renderSelectDocument. benign.
  - unfold renderEnterDocNumber. benign.
  - apply benign_renderUploadDocument.
  - unfold renderSelfieUpload, startCamera. cbv zeta. benign.
  - unfold renderStatusPage. cbv zeta.
    eapply benign_trans; [|apply benign_loadStatus]. benign.
  - unfold renderAdminList.
    eapply benign_trans; [|apply benign_loadSessions]. benign.
Qed.

Lemma benign_iter (n : nat) (w : world) (render : world -> world) :
  In render [showHome; renderCreateSession; renderSelectDocument;
             renderEnterDocNumber; renderUploadDocument; renderSelfieUpload;
             renderStatusPage; renderAdminList] ->
  benign (Nat.iter n render w) w.
Proof.
  intros Hin. induction n as [|n IH]; simpl; [apply benign_refl|].
  eapply benign_trans; [exact IH | apply benign_render, Hin].
Qed.

Lemma benign_submit_create_session a b c w : benign (submit_create_session a b c w) w.
Proof.
  unfold submit_create_session. cbv zeta.
  destruct (_ || _); [benign|]. destruct (parseInt c) as [n|]; [|benign].
  destruct (n <? 18); [benign|].
  eapply benign_trans; [|apply benign_spawn].
  eapply benign_trans; [apply benign_showMessage|].
  apply benign_send. left. eexists. reflexivity.
Qed.

Lemma benign_click_doc attr w : benign (click_doc attr w) w.
Proof.
  unfold click_doc. cbv zeta. destruct (truthy (sessionId (st w))) eqn:Ht; simpl; [|benign].
  eapply benign_trans; [|apply benign_spawn].
  apply benign_send. eapply session_request_path; [exact Ht | reflexivity].
Qed.

Lemma benign_submit_doc_number a w : benign (submit_doc_number a w) w.
Proof.
  unfold submit_doc_number. cbv zeta. destruct (String.eqb _ _); [benign|].
  destruct (truthy (sessionId (st w))) eqn:Ht; simpl; [|benign].
  eapply benign_trans; [|apply benign_spawn].
  apply benign_send. eapply session_request_path; [exact Ht | reflexivity].
Qed.

Lemma benign_click_upload_doc w : benign (click_upload_doc w) w.
Proof.
  unfold click_upload_doc. cbv zeta. destruct (chosenFile _); [|benign].
  destruct (truthy (sessionId (st w))) eqn:Ht; simpl; [|benign].
  eapply benign_trans; [|apply benign_spawn].
  eapply benign_trans; [apply benign_setMain|].
  apply benign_send. eapply (session_request_path (setMain _ w)); [exact Ht | reflexivity].
Qed.

Lemma benign_click_upload_selfie w : benign (click_upload_selfie w) w.
Proof.
  unfold click_upload_selfie. cbv zeta. destruct (capturedBlob _); [|benign].
  destruct (truthy (sessionId (st w))) eqn:Ht; simpl; [|benign].
  eapply benign_trans; [|apply benign_spawn].
  eapply benign_trans; [apply benign_showMessage|].
  apply benign_send. eapply (session_request_path (showMessage _ _ w)); [|reflexivity].
  unfold showMessage. destruct (Nat.eqb _ _); exact Ht.
Qed.

Lemma benign_click_capture_selfie x w : benign (click_capture_selfie x w) w.
Proof. unfold click_capture_selfie. cbv zeta. destruct (x =? 0); benign. Qed.

Lemma benign_setupFileInput v w : benign (setupFileInput v w) w.
Proof. unfold setupFileInput, set_sourceArea. benign. Qed.

Lemma benign_setupCameraCapture v w : benign (setupCameraCapture v w) w.
Proof.
  unfold setupCameraCapture, new_node, set_sourceArea. benign.
  apply benign_silent; reflexivity.
Qed.

Lemma benign_change_source value w : benign (change_source value w) w.
Proof.
  unfold change_source. cbv zeta. destruct (String.eqb value "file").
  - eapply benign_trans; [|apply benign_setupFileInput]. unfold set_chosenFile. benign.
  - eapply benign_trans; [|apply benign_setupCameraCapture]. unfold set_chosenFile. benign.
Qed.

Lemma benign_click_apply a b c w : benign (click_apply a b c w) w.
Proof.
  unfold click_apply. destruct (getCurrentFilters a b c);
    [apply benign_loadSessions | apply benign_refl].
Qed.

Lemma benign_click (b : button) (w : world) : benign (click b w) w.
Proof.
  unfold click. destruct b; try apply benign_refl.
  - eapply benign_trans; apply (benign_render _ showHome); simpl; auto.
  - eapply benign_trans; apply (benign_render _ renderAdminList); simpl; auto 10.
  - apply (benign_iter (S listeners) w renderCreateSession). simpl. auto.
  - apply (benign_iter (S listeners) w renderAdminList). simpl. auto 10.
  - destruct (shown w); try apply benign_refl.
    apply (benign_render _ renderCreateSession). simpl. auto.
  - destruct (shown w); try apply benign_refl.
    apply (benign_render _ showHome). simpl. auto.
  - destruct (shown w); try apply benign_refl. apply benign_click_doc.
  - destruct (shown w); try apply benign_refl.
    apply (benign_render _ renderSelectDocument). simpl. auto.
  - destruct (shown w); try apply benign_refl. apply benign_click_upload_doc.
  - destruct (shown w); try apply benign_refl. unfold click_cancel_upload.
    eapply benign_trans; [apply benign_stopLocalCamera|].
    apply (benign_render _ showHome). simpl. auto.
  - destruct (shown w); try apply benign_refl.
    destruct (camera_wired _ _); benign.
  - destruct (shown w); try apply benign_refl.
    destruct (camera_wired _ _); [|apply benign_refl]. unfold click_doc_close. cbv zeta.
    eapply benign_trans; [apply benign_stopLocalCamera | apply benign_setupFileInput].
  - destruct (shown w) as [| | | | |[]| | |]; try apply benign_refl.
    apply (benign_render _ renderSelfieUpload). simpl. auto 10.
  - destruct (shown w) as [| | | | |[]| | |]; try apply benign_refl.
    apply (benign_render _ renderUploadDocument). simpl. auto 10.
  - destruct (shown w); try apply benign_refl. apply benign_click_capture_selfie.
  - destruct (shown w); try apply benign_refl. apply benign_click_upload_selfie.
  - destruct (shown w); try apply benign_refl. unfold click_cancel_selfie.
    eapply benign_trans; [apply benign_stopCamera|].
    apply (benign_render _ renderUploadDocument). simpl. auto 10.
  - destruct (shown w); try apply benign_refl. apply benign_loadStatus.
  - destruct (shown w); try apply benign_refl.
    apply (benign_render _ showHome). simpl. auto.
  - destruct (shown w); try apply benign_refl. apply benign_click_apply.
  - destruct (shown w); try apply benign_refl. apply benign_loadSessions.
Qed.

End BenignHandlers.


Section StepEffects.

Lemma benign_same_data (w' w : world) : benign w' w -> same_data w' w.
Proof. intros [H _]. exact H. Qed.

Lemma benign_grows (w' w : world) : benign w' w -> grows w' w.
Proof. intros [_ H]. exact H. Qed.

Lemma benign_wire v p w : benign (wire v p w) w.
Proof.
  unfold wire. destruct (sourceArea _); [apply benign_refl|].
  destruct (Nat.eqb _ _); [|apply benign_refl]. unfold set_sourceArea. benign.
Qed.

Lemma benign_camera_error v e w : benign (camera_error v e w) w.
Proof. unfold camera_error. benign. Qed.

Lemma benign_settle_status v f w : benign (settle_status v f w) w.
Proof. unfold settle_status. destruct (bind _ _); benign. Qed.

Lemma benign_settle_selfie v f w : benign (settle_selfie v f w) w.
Proof.
  unfold settle_selfie. destruct (selfie_try f); [|benign].
  eapply benign_trans; [apply benign_stopCamera|].
  apply (benign_render _ renderStatusPage). simpl. auto 10.
Qed.

Lemma same_data_fields (w' w : world) :
  same_data w' w ->
  session_slot w' = session_slot w /\
  documentType (st w') = documentType (st w) /\
  documentNumber (st w') = documentNumber (st w) /\
  lastOcrResponse (st w') = lastOcrResponse (st w).
Proof.
  intros [Hl Hd]. unfold data_fields, session_fields in Hd. unfold session_slot.
  injection Hd as -> -> -> -> -> -> ->. rewrite Hl. auto.
Qed.

(** The effect of a settled request on the data, case by case: nothing,
    or the writes of the one computation that is resumed. *)
Lemma settle_effect (i : nat) (o : outcome) (w : world) :
  let w' := settle i o w in
  grows w' w /\
  (same_data w' w
   \/ (exists v n m a, resumed (Settle i o) w = Some (TCreateSession v n m a) /\
        documentType (st w') = documentType (st w) /\
        documentNumber (st w') = documentNumber (st w) /\
        lastOcrResponse (st w') = lastOcrResponse (st w) /\
        truthy (sessionId (st w')) = true /\
        localStorage w' = <[storage_key := Str (sessionId (st w'))]> (localStorage w))
   \/ (exists v d, resumed (Settle i o) w = Some (TSelectDocument v d) /\
        session_slot w' = session_slot w /\
        documentNumber (st w') = documentNumber (st w) /\
        lastOcrResponse (st w') = lastOcrResponse (st w))
   \/ (exists v d, resumed (Settle i o) w = Some (TEnterDocNumber v d) /\
        session_slot w' = session_slot w /\
        documentType (st w') = documentType (st w) /\
        lastOcrResponse (st w') = lastOcrResponse (st w))
   \/ (exists v, resumed (Settle i o) w = Some (TValidateDocument v) /\
        session_slot w' = session_slot w /\
        documentType (st w') = documentType (st w) /\
        documentNumber (st w') = documentNumber (st w))).
Proof.
  cbv zeta. unfold settle, resumed.
  destruct (tasks w !! i) as [t|] eqn:Ht;
    [|split; [apply grows_refl | left; apply same_data_refl]].
  set (w0 := with_tasks (delete i (tasks w)) w).
  assert (Hb : forall w', benign w' w0 ->
            grows w' w /\ (same_data w' w \/ False)).
  { intros w' [Hd Hg]. split; [exact Hg | left; exact Hd]. }
  assert (Hben : forall w', benign w' w0 -> grows w' w /\ same_data w' w).
  { intros w' [Hd Hg]. split; [exact Hg | exact Hd]. }
  clear Hb.
  destruct t, o; simpl;
    try (split; [apply grows_refl | left; apply same_data_refl]);
    try (match goal with
         | |- grows ?x w /\ _ =>
             assert (Hx : benign x w0);
             [ solve [ apply benign_settle_status | apply benign_settle_selfie
                     | apply benign_camera_error | apply benign_wire
                     | apply benign_refl
                     | unfold set_chosenFile, set_localStream; benign
                     | unfold benign, same_data, grows, set_localStream, set_selfie,
                         set_upload, spawn; simpl;
                       split; [split; reflexivity
                              |exists []; split; [symmetry; apply app_nil_r | constructor]]
                     | destruct k; [apply (benign_render _ renderSelectDocument)
                                   |apply (benign_render _ renderUploadDocument)];
                       simpl; auto 10 ]
             | destruct (Hben _ Hx) as [Hg Hd]; split; [exact Hg | left; exact Hd] ]
         end).
  - (* create session *)
    unfold settle_create_session. destruct (session_id_of f) as [sid|e] eqn:Hs.
    + pose proof (session_id_of_Ok f sid Hs) as [Hsid _].
      unfold showMessage. simpl.
      destruct (Nat.eqb v (vid w)); simpl;
        (split; [exists []; split; [symmetry; apply app_nil_r | constructor]|];
         right; left; eexists _, _, _, _; repeat split; assumption).
    + assert (Hx : benign (showMessage v (failure "Create session failed: " e) w0) w0)
        by apply benign_showMessage.
      destruct (Hben _ Hx) as [Hg Hd]. split; [exact Hg | left; exact Hd].
  - (* select document *)
    unfold settle_select_document. destruct (bind _ _) as [t|e].
    + assert (Hx : benign (renderEnterDocNumber (with_st (set_documentType t) w0))
                          (with_st (set_documentType t) w0))
        by (apply (benign_render _ renderEnterDocNumber); simpl; auto 10).
      destruct Hx as [Hd Hg]. apply same_data_fields in Hd as (H1 & _ & H3 & H4).
      split; [exact Hg|]. right. right. left. exists v, docType.
      split; [reflexivity|]. split; [exact H1|]. split; [exact H3 | exact H4].
    + assert (Hx : benign (showMessage v (failure "Select document failed: " e) w0) w0)
        by apply benign_showMessage.
      destruct (Hben _ Hx) as [Hg Hd]. split; [exact Hg | left; exact Hd].
  - (* document number *)
    unfold settle_doc_number. destruct (bind _ _) as [t|e].
    + assert (Hx : benign (renderUploadDocument (with_st (set_documentNumber t) w0))
                          (with_st (set_documentNumber t) w0))
        by apply benign_renderUploadDocument.
      destruct Hx as [Hd Hg]. apply same_data_fields in Hd as (H1 & H2 & _ & H4).
      split; [exact Hg|]. right. right. right. left. exists v, docno.
      split; [reflexivity|]. split; [exact H1|]. split; [exact H2 | exact H4].
    + assert (Hx : benign (showMessage v (failure "Saving document number failed: " e) w0) w0)
        by apply benign_showMessage.
      destruct (Hben _ Hx) as [Hg Hd]. split; [exact Hg | left; exact Hd].
  - (* validate document *)
    split.
    + unfold settle_validate, show_ocr. destruct (ocr_outcome f) as [[d|] [s|t]];
        destruct (Nat.eqb v (vid w)) eqn:Hv; simpl; rewrite ?Hv;
        (exists []; split; [symmetry; apply app_nil_r | constructor]).
    + right. right. right. right. exists v. split; [reflexivity|].
      unfold settle_validate, show_ocr. destruct (ocr_outcome f) as [[d|] [s|t]];
        destruct (Nat.eqb v (vid w)) eqn:Hv; simpl; rewrite ?Hv; repeat split; reflexivity.
Qed.

(** The same for every event. *)
Lemma step_effect (e : event) (w : world) :
  let w' := step e w in
  grows w' w /\
  (same_data w' w
   \/ (exists v n m a, resumed e w = Some (TCreateSession v n m a) /\
        documentType (st w') = documentType (st w) /\
        documentNumber (st w') = documentNumber (st w) /\
        lastOcrResponse (st w') = lastOcrResponse (st w) /\
        truthy (sessionId (st w')) = true /\
        localStorage w' = <[storage_key := Str (sessionId (st w'))]> (localStorage w))
   \/ (exists v d, resumed e w = Some (TSelectDocument v d) /\
        session_slot w' = session_slot w /\
        documentNumber (st w') = documentNumber (st w) /\
        lastOcrResponse (st w') = lastOcrResponse (st w))
   \/ (exists v d, resumed e w = Some (TEnterDocNumber v d) /\
        session_slot w' = session_slot w /\
        documentType (st w') = documentType (st w) /\
        lastOcrResponse (st w') = lastOcrResponse (st w))
   \/ (exists v, resumed e w = Some (TValidateDocument v) /\
        session_slot w' = session_slot w /\
        documentType (st w') = documentType (st w) /\
        documentNumber (st w') = documentNumber (st w))).
Proof.
  assert (Hben : forall w', benign w' w ->
            grows w' w /\ (same_data w' w \/ False)).
  { intros w' [Hd Hg]. split; [exact Hg | left; exact Hd]. }
  assert (Hsame : forall (P : Prop) w', benign w' w -> grows w' w /\ (same_data w' w \/ P)).
  { intros P w' [Hd Hg]. split; [exact Hg | left; exact Hd]. }
  clear Hben. cbv zeta. unfold step. destruct e.
  - apply Hsame, benign_click.
  - destruct (shown w); apply Hsame;
      first [apply benign_submit_create_session | apply benign_refl].
  - destruct (shown w); apply Hsame;
      first [apply benign_submit_doc_number | apply benign_refl].
  - destruct (shown w); apply Hsame;
      first [apply benign_change_source | apply benign_refl].
  - destruct (shown w); apply Hsame; try apply benign_refl.
    destruct (sourceArea _); [|apply benign_refl]. unfold change_file.
    destruct f; [unfold set_chosenFile; benign | apply benign_refl].
  - pose proof (settle_effect i o w) as H. cbv zeta in H. destruct (shown w); exact H.
  - destruct (shown w); apply Hsame, benign_stopActiveStream.
  - destruct (shown w); apply Hsame, benign_stopActiveStream.
Qed.

End StepEffects.

Section Invariants.

Lemma boot_requests (stored : option string) : requests (boot stored) = [].
Proof. destruct stored; reflexivity. Qed.

(** X1. Every request the customer wizard and the list of the moderation
    view send (the detail window of the moderation view sends its own,
    named after the row that was clicked, and is not part of this loop)
    goes to the session-creation endpoint, to the list endpoint, or to an
    endpoint of one session whose path is built from a truthy identifier:
    in no reachable world has a request been sent for a missing ([null],
    [undefined] or empty) session identifier. *)
Theorem requests_name_a_session (w : world) :
  reachable w -> Forall known_request (requests w).
Proof.
  induction 1 as [stored | e w Hw IH].
  - rewrite boot_requests. constructor.
  - destruct (step_effect e w) as [[sent [-> Hs]] _].
    apply Forall_app. split; assumption.
Qed.

Lemma requests_name_a_session_witness :
  reachable (steps to_upload_view (boot None)) /\
  Forall known_request (requests (steps to_upload_view (boot None))).
Proof.
  assert (H : reachable (steps to_upload_view (boot None)))
    by apply reachable_steps, reachable_boot.
  split; [exact H | exact (requests_name_a_session _ H)].
Defined.



(** X3. Each part of the session data has one writer.  Whatever the event
    and the world, a step leaves the identifier, the name, the mobile
    number, the age and [localStorage] as they are unless it resumes the
    create-session handler with a settled request; likewise the document
    type and the select-document handler, the document number and the
    enter-number handler, the last OCR response and the upload handler. *)
Theorem session_data_writers (e : event) (w : world) :
  (session_slot (step e w) = session_slot w
   \/ exists v n m a, resumed e w = Some (TCreateSession v n m a)) /\
  (documentType (st (step e w)) = documentType (st w)
   \/ exists v d, resumed e w = Some (TSelectDocument v d)) /\
  (documentNumber (st (step e w)) = documentNumber (st w)
   \/ exists v d, resumed e w = Some (TEnterDocNumber v d)) /\
  (lastOcrResponse (st (step e w)) = lastOcrResponse (st w)
   \/ exists v, resumed e w = Some (TValidateDocument v)).
Proof.
  destruct (step_effect e w) as [_ H].
  destruct H as [Hd | [H | [H | [H | H]]]].
  - apply same_data_fields in Hd. tauto.
  - destruct H as (v & n & m & a & Hr & H2 & H3 & H4 & _).
    split; [right; eauto | tauto].
  - destruct H as (v & d & Hr & H1 & H3 & H4).
    split; [tauto|]. split; [right; eauto | tauto].
  - destruct H as (v & d & Hr & H1 & H2 & H4).
    split; [tauto|]. split; [tauto|]. split; [right; eauto | tauto].
  - destruct H as (v & Hr & H1 & H2 & H3).
    split; [tauto|]. split; [tauto|]. split; [tauto | right; eauto].
Qed.

End Invariants.

Section Responses.

Lemma apiFetch_failed (f : fetched) : failed f -> exists e, apiFetch f = Throw e.
Proof.
  destruct f as [res|e]; simpl; intros H; [|eauto].
  destruct (apiFetch (Responded res)) as [body|e] eqn:Hf; [|eauto].
  apply apiFetch_Ok in Hf as (res' & [= <-] & Hok). congruence.
Qed.

Lemma selfie_try_failed (f : fetched) : failed f -> exists e, selfie_try f = Throw e.
Proof.
  destruct f as [res|e]; simpl; intros H; [|eauto]. rewrite H. simpl.
  destruct (res_text res); eauto.
Qed.

(** X7. A failure that arrives late is silent.  When a request of the
    create-session, select-document, enter-number, selfie or status handler
    fails (rejected [fetch] or a status that is not a success) after the
    view it was made from has been replaced, resuming the handler changes
    nothing that can be observed: no message, no write, no request, no
    timer, no change of view; only the suspended computation is gone. *)
Theorem late_failure_is_silent (i : nat) (t : task) (v : nat) (f : fetched) (w : world) :
  tasks w !! i = Some t -> reports_in t = Some v -> v <> vid w -> failed f ->
  step (Settle i (Fetched f)) w = with_tasks (delete i (tasks w)) w.
Proof.
  intros Ht Hv Hne Hf.
  assert (Hs : step (Settle i (Fetched f)) w = settle i (Fetched f) w)
    by (unfold step; destruct (shown w); reflexivity).
  rewrite Hs. unfold settle. rewrite Ht.
  assert (Hm : forall t0, showMessage v t0 (with_tasks (delete i (tasks w)) w)
                          = with_tasks (delete i (tasks w)) w).
  { intros t0. unfold showMessage. simpl.
    destruct (Nat.eqb v (vid w)) eqn:E; [|reflexivity].
    apply Nat.eqb_eq in E. contradiction. }
  destruct (apiFetch_failed f Hf) as [e He].
  destruct (selfie_try_failed f Hf) as [e' He'].
  destruct t; simpl in Hv; try discriminate; injection Hv as ->; simpl.
  - unfold settle_create_session, session_id_of. rewrite He. simpl. apply Hm.
  - unfold settle_select_document. rewrite He. simpl. apply Hm.
  - unfold settle_doc_number. rewrite He. simpl. apply Hm.
  - unfold settle_selfie. rewrite He'. apply Hm.
  - unfold settle_status. rewrite He. simpl. apply Hm.
Qed.


(** X7 when the home view has been opened while the create-session request
    was pending, and the request is then rejected. *)
Lemma late_failure_is_silent_witness :
  let w := steps [Click StartKyc; SubmitCreateSession "A" "9876543210" "25";
                  Click NavHome] (boot None) in
  step (Settle 0 (Fetched (Rejected (new_Error (Lit "Failed to fetch"))))) w =
  with_tasks (delete 0%nat (tasks w)) w.
Proof.
  cbv zeta.
  apply (late_failure_is_silent 0 (TCreateSession 1 "A" "9876543210" 25) 1).
  - reflexivity.
  - reflexivity.
  - vm_compute. lia.
  - exact I.
Defined.


End Responses.

Section Forward.

Lemma step_settle (i : nat) (o : outcome) (w : world) :
  step (Settle i o) w = settle i o w.
Proof. unfold step. destruct (shown w); reflexivity. Qed.


Lemma renderUploadDocument_st (w : world) :
  st (renderUploadDocument w) = set_activeStream None (st w).
Proof.
  rewrite renderUploadDocument_eq. cbv zeta. unfold stopActiveStream.
  destruct (activeStream (st w)); reflexivity.
Qed.









End Forward.

Section UploadView.

Lemma upload_of_with_st (v : nat) (g : State -> State) (w : world) :
  upload_of v (with_st g w) = upload_of v w.
Proof. reflexivity. Qed.

Lemma upload_of_stop_tracks (v : nat) (s : stream) (w : world) :
  upload_of v (stop_tracks s w) = upload_of v w.
Proof. reflexivity. Qed.

(** What [stopLocalCamera] does: it stops the stream of its own closure
    and no other, and it clears [state.activeStream] whatever that held. *)
Lemma stopLocalCamera_effect (v : nat) (w : world) :
  let w' := stopLocalCamera v w in
  activeStream (st w') = None /\
  localStream (upload_of v w') = None /\
  chosenFile (upload_of v w') = chosenFile (upload_of v w) /\
  sourceArea (upload_of v w') = sourceArea (upload_of v w) /\
  shown w' = shown w /\ vid w' = vid w /\ requests w' = requests w /\
  tasks w' = tasks w /\ banner w' = banner w /\
  forall s, s ∈ live w' <-> s ∈ live w /\ localStream (upload_of v w) <> Some s.
Proof.
  cbv zeta. unfold stopLocalCamera.
  destruct (localStream (upload_of v w)) as [s0|] eqn:Hl.
  - rewrite upload_of_with_st. unfold set_localStream.
    rewrite upload_of_set_upload, upload_of_stop_tracks. simpl.
    split_and!; try reflexivity.
    intros s. rewrite elem_of_difference, elem_of_singleton.
    split; intros [Hs Hn]; (split; [exact Hs|]); congruence.
  - rewrite upload_of_with_st, Hl. simpl.
    split_and!; try reflexivity. intros s. split; [|tauto].
    intros Hs. split; [exact Hs | discriminate].
Qed.

Lemma setupFileInput_effect (v : nat) (w : world) :
  let w' := setupFileInput v w in
  activeStream (st w') = None /\
  upload_of v w' = mkUpload (chosenFile (upload_of v w)) None FileInput /\
  shown w' = shown w /\ vid w' = vid w /\ requests w' = requests w /\
  tasks w' = tasks w /\ banner w' = banner w /\
  forall s, s ∈ live w' <-> s ∈ live w /\ localStream (upload_of v w) <> Some s.
Proof.
  cbv zeta. unfold setupFileInput, set_sourceArea.
  destruct (stopLocalCamera_effect v w) as (H1 & H2 & H3 & H4 & H5 & H6 & H7 & H8 & H9 & H10).
  cbv zeta in *. rewrite upload_of_set_upload, H2, H3.
  split_and!; try assumption; try reflexivity.
Qed.

Lemma step_source_change (value : string) (w : world) :
  shown w = UploadDocument -> step (SourceChange value) w = change_source value w.
Proof. unfold step. intros ->. reflexivity. Qed.

Lemma step_click (b : button) (w : world) : step (Click b) w = click b w.
Proof. reflexivity. Qed.

(** X10. Leaving the camera of the upload view stops the stream of that
    view and no other.  Switching the source to the file input, the Close
    button and the Cancel button stop exactly the stream the closure of the
    view holds, and leave [state.activeStream] empty whatever it held: a
    stream that only [state] referred to keeps running, with no reference
    left to stop it by. *)
Theorem upload_view_stops_own_stream_only (e : event) (w : world) :
  shown w = UploadDocument ->
  e = SourceChange "file" \/ e = Click CancelUploadDoc \/
  (e = Click DocClose /\ camera_wired (vid w) w = true) ->
  let w' := step e w in
  activeStream (st w') = None /\
  forall s, s ∈ live w' <-> s ∈ live w /\ ~ own_stream w s.
Proof.
  intros Hs He. cbv zeta. unfold own_stream.
  destruct He as [-> | [-> | [-> Hw]]].
  - rewrite (step_source_change _ _ Hs). unfold change_source. cbv zeta.
    change (String.eqb "file" "file") with true. cbv iota.
    destruct (setupFileInput_effect (vid w) (set_chosenFile (vid w) None w))
      as (H1 & _ & _ & _ & _ & _ & _ & H8).
    cbv zeta in *. split; [exact H1|]. intros s. rewrite H8.
    unfold set_chosenFile. rewrite upload_of_set_upload. reflexivity.
  - rewrite step_click. unfold click. rewrite Hs. unfold click_cancel_upload, showHome.
    destruct (stopLocalCamera_effect (vid w) w)
      as (H1 & _ & _ & _ & _ & _ & _ & _ & _ & H10).
    cbv zeta in *. rewrite (stopActiveStream_none _ H1).
    split; [exact H1 | exact H10].
  - rewrite step_click. unfold click. rewrite Hs, Hw. unfold click_doc_close. cbv zeta.
    destruct (stopLocalCamera_effect (vid w) w)
      as (H1 & H2 & _ & _ & _ & _ & _ & _ & _ & H10).
    destruct (setupFileInput_effect (vid w) (stopLocalCamera (vid w) w))
      as (G1 & _ & _ & _ & _ & _ & _ & G8).
    cbv zeta in *. split; [exact G1|]. intros s. rewrite G8, H2, H10.
    split; [intros [H _]; exact H | intros H; split; [exact H | discriminate]].
Qed.


(** X10 where two streams run and the view holds the second: switching to
    the file input stops the second and forgets the first. *)
Lemma upload_view_stops_own_stream_only_witness :
  let w := steps (to_upload_view ++ switch_while_pending) (boot None) in
  let w' := step (SourceChange "file") w in
  live w = {[ 0%nat; 1%nat ]} /\ activeStream (st w') = None /\
  (0%nat ∈ live w' <-> 0%nat ∈ live w /\ ~ own_stream w 0%nat).
Proof.
  cbv zeta. split; [reflexivity|].
  destruct (upload_view_stops_own_stream_only (SourceChange "file")
              (steps (to_upload_view ++ switch_while_pending) (boot None))
              eq_refl (or_introl eq_refl)) as [H1 H2].
  split; [exact H1 | exact (H2 0%nat)].
Defined.


(** X11. Switching the source discards the file chosen so far, whichever
    source is switched to: pressing the upload button right after a switch
    sends no request and leaves the upload view with the message that asks
    for a file. *)
Theorem source_switch_discards_file (value : string) (w : world) :
  shown w = UploadDocument ->
  let w' := steps [SourceChange value; Click UploadDocBtn] w in
  requests w' = requests w /\ shown w' = UploadDocument /\ vid w' = vid w /\
  banner w' = Some (Lit "Please choose or capture a file first.").
Proof.
  intros Hs. cbv zeta. unfold steps. cbn [fold_left].
  rewrite (step_source_change _ _ Hs), step_click.
  assert (H : let w1 := change_source value w in
              shown w1 = UploadDocument /\ vid w1 = vid w /\
              requests w1 = requests w /\ chosenFile (upload_of (vid w) w1) = None).
  { cbv zeta. unfold change_source. cbv zeta. destruct (String.eqb value "file").
    - destruct (setupFileInput_effect (vid w) (set_chosenFile (vid w) None w))
        as (_ & H2 & H3 & H4 & H5 & _).
      cbv zeta in *. rewrite H2, H3, H4, H5. unfold set_chosenFile.
      rewrite upload_of_set_upload. split_and!; try reflexivity; exact Hs.
    - unfold setupCameraCapture, new_node, set_sourceArea, set_chosenFile.
      simpl. split_and!; try reflexivity; try exact Hs.
      unfold upload_of, set_upload. simpl. rewrite lookup_insert_eq. simpl.
      rewrite lookup_insert_eq. reflexivity. }
  cbv zeta in H. destruct H as (H1 & H2 & H3 & H4).
  unfold click. rewrite H1. unfold click_upload_doc. cbv zeta.
  rewrite H2, H4. unfold showMessage. rewrite H2, Nat.eqb_refl. simpl.
  split_and!; try assumption; reflexivity.
Qed.


(** X11 after a file has been chosen in the upload view. *)
Lemma source_switch_discards_file_witness :
  let w := steps (to_upload_view ++ [FileChange (Some 5%nat)]) (boot None) in
  chosenFile (upload_of (vid w) w) = Some 5%nat /\
  requests (steps [SourceChange "camera"; Click UploadDocBtn] w) = requests w.
Proof.
  cbv zeta. split; [reflexivity|].
  apply (source_switch_discards_file "camera"
           (steps (to_upload_view ++ [FileChange (Some 5%nat)]) (boot None))).
  reflexivity.
Defined.


End UploadView.

Section ApiFetch.












End ApiFetch.

Section AdminList.

Lemma toISOString_nonempty (tv : option Z) (s : string) :
  toISOString tv = Ok s -> String.eqb s "" = false.
Proof.
  destruct tv as [t|]; simpl; [|discriminate]. intros [= <-].
  destruct (year_text (YearFromTime t)); reflexivity.
Qed.

Lemma query_own_filters (fStatus fDoc : string) (dates : list (string * string)) :
  dates = [] \/
  (exists a b, dates = [("created_from", a); ("created_to", b)] /\
               String.eqb a "" = false /\ String.eqb b "" = false) ->
  query (base_filters fStatus fDoc ++ dates) = base_filters fStatus fDoc ++ dates.
Proof.
  intros Hd. unfold query, base_filters.
  destruct (String.eqb fStatus "") eqn:Hs, (String.eqb fDoc "") eqn:Hc;
    destruct Hd as [-> | (a & b & -> & Ha & Hb)]; simpl;
    rewrite ?Hs, ?Hc, ?Ha, ?Hb; reflexivity.
Qed.

(** X14. The Apply button sends what [getCurrentFilters] reads.  The
    object it returns holds only non-empty values under the four names the
    query is built from, in the order of the query: the request to the list
    endpoint carries exactly these filters, none dropped, none added. *)
Theorem apply_sends_what_it_reads
    (fStatus fDoc fDate : string) (f : list (string * string)) (w : world) :
  shown w = AdminList ->
  getCurrentFilters fStatus fDoc fDate = Ok f ->
  requests (step (Click (FilterApply fStatus fDoc fDate)) w) =
    requests w ++ [Get (Lit "/api/v1/admin/kyc/sessions") f].
Proof.
  intros Hs Hf. rewrite step_click. unfold click. rewrite Hs. unfold click_apply.
  rewrite Hf.
  unfold loadSessions, send. simpl. f_equal. f_equal. f_equal.
  assert (H : exists dates, f = base_filters fStatus fDoc ++ dates /\
            (dates = [] \/
             exists a b, dates = [("created_from", a); ("created_to", b)] /\
                         String.eqb a "" = false /\ String.eqb b "" = false)).
  { unfold getCurrentFilters in Hf.
    assert (Hb : (let f := [] in
                  let f := if String.eqb fStatus "" then f else f ++ [("status", fStatus)] in
                  if String.eqb fDoc "" then f else f ++ [("doc_type", fDoc)])
                 = base_filters fStatus fDoc).
    { unfold base_filters. destruct (String.eqb fStatus ""), (String.eqb fDoc ""); reflexivity. }
    cbv zeta in Hf, Hb. rewrite Hb in Hf.
    destruct (String.eqb fDate "").
    - injection Hf as <-. exists []. rewrite app_nil_r. auto.
    - destruct (split_dash fDate) as [|p0 [|p1 [|p2 [|p3 rest]]]];
        try (injection Hf as <-; exists []; rewrite app_nil_r; auto).
      destruct (toISOString (Date_UTC _ _ _ 0 0 0)) as [a|] eqn:Ha; [|discriminate].
      destruct (toISOString (Date_UTC _ _ _ 23 59 59)) as [b|] eqn:Hb2; [|discriminate].
      cbn [bind] in Hf. injection Hf as <-. eexists. split; [reflexivity|].
      right. exists a, b. split; [reflexivity|].
      split; eapply toISOString_nonempty; eassumption. }
  destruct H as (dates & -> & Hd). apply query_own_filters, Hd.
Qed.


(** X14 with the status APPROVED and the date 2024-03-15. *)
Lemma apply_sends_what_it_reads_witness :
  let w := step (Click NavAdmin) (boot None) in
  requests (step (Click (FilterApply "APPROVED" "" "2024-03-15")) w) =
    requests w ++ [Get (Lit "/api/v1/admin/kyc/sessions")
                       [("status", "APPROVED");
                        ("created_from", "2024-03-15T00:00:00.000Z");
                        ("created_to", "2024-03-15T23:59:59.000Z")]].
Proof.
  cbv zeta.
  apply (apply_sends_what_it_reads "APPROVED" "" "2024-03-15").
  - reflexivity.
  - vm_compute. reflexivity.
Defined.


End AdminList.

Section AdminDetail.






End AdminDetail.

Section PlainText.

(** X16. A success response that is not JSON never confirms an upload.  When
    the status is a success but the content type is not JSON and the text
    cannot be parsed, the upload handler takes the attempt as a mismatch:
    it shows the text of the response (the generic mismatch text when there
    is none) and leaves the timer that renders the upload step again. *)
Theorem plain_text_success_retries (res : response) (e : error) :
  ok res = true -> is_json res = false -> res_json res = Throw e ->
  exists data,
    ocr_outcome (Responded res) = (Some data, Redo (Str (VString (plain_reason res)))).
Proof.
  intros Hok Hj Hr. unfold ocr_outcome, ocr_try, ocr_data, plain_reason.
  rewrite Hok, Hj, Hr. cbn [negb].
  destruct (res_text res) as [txt|]; [destruct (String.eqb txt "") eqn:Ht|].
  - eexists. reflexivity.
  - eexists. simpl. unfold or. simpl. rewrite Ht. reflexivity.
  - eexists. reflexivity.
Qed.


(** X16 on a response with status 200 and the plain text "OK". *)
Lemma plain_text_success_retries_witness :
  let res := Response true 200 (Some "text/plain") (Some "OK")
               (Throw (new_Error (Lit "Unexpected token O in JSON at position 0"))) in
  exists data, ocr_outcome (Responded res) = (Some data, Redo (Str (VString "OK"))).
Proof.
  cbv zeta.
  apply (plain_text_success_retries
           (Response true 200 (Some "text/plain") (Some "OK")
              (Throw (new_Error (Lit "Unexpected token O in JSON at position 0"))))
           (new_Error (Lit "Unexpected token O in JSON at position 0")));
    reflexivity.
Defined.


End PlainText.

Section Listeners.




End Listeners.

Section Timers.

(** X18. A timer is not cancelled by navigation.  When the timer left by
    the creation of a session (300 ms) or by an upload attempt (1200 ms)
    fires, its callback renders the select-document or the upload view
    whatever view is shown by then, releasing the stream [state] holds and
    leaving the session data as they are. *)
Theorem timers_ignore_navigation (i : nat) (delay : Z) (k : continuation) (w : world) :
  tasks w !! i = Some (TTimer delay k) ->
  let w' := step (Settle i Fired) w in
  shown w' = rendered_by k /\ activeStream (st w') = None /\
  session_fields w' = session_fields w /\ requests w' = requests w.
Proof.
  intros Ht. cbv zeta. rewrite step_settle. unfold settle. rewrite Ht.
  cbn [resume from_option]. unfold id, run. destruct k.
  - unfold renderSelectDocument, stopActiveStream, session_fields.
    destruct (activeStream _) eqn:E; simpl; simpl in E; rewrite ?E;
      split_and!; reflexivity.
  - match goal with |- context [renderUploadDocument ?x] =>
      destruct (renderUploadDocument_frame x) as (H1 & _ & H3 & H4 & _);
      pose proof (renderUploadDocument_st x) as H2 end.
    cbv zeta in H1, H3, H4. rewrite H1, H2, H3, H4. split_and!; reflexivity.
Qed.

(** X18 when the home view has been opened within the 300 ms that follow
    the creation of a session. *)
Lemma timers_ignore_navigation_witness :
  let w := steps [Click StartKyc; SubmitCreateSession "A" "9876543210" "25";
                  Settle 0 (json_200 (VObject [("session_id", VString "S1")]));
                  Click NavHome] (boot None) in
  shown w = Home /\ shown (step (Settle 0 Fired) w) = SelectDocument.
Proof.
  cbv zeta. split; [reflexivity|].
  apply (timers_ignore_navigation 0 300 RenderSelectDocument
           (steps [Click StartKyc; SubmitCreateSession "A" "9876543210" "25";
                   Settle 0 (json_200 (VObject [("session_id", VString "S1")]));
                   Click NavHome] (boot None))).
  reflexivity.
Defined.

End Timers.
